(** * scraperio.py: the search-and-capture workflow

    A shallow embedding of [scraperio.py].  The script drives a browser
    through Selenium, writes a snapshot of the result page to disk and
    then starts [crawler.py].  Everything the script does not own (the
    browser, the file system, the clock, standard input, the child
    process) is an environment that answers requests; the script itself
    becomes a state-and-exception monad over the list of requests it has
    made and the log records it has emitted.

    An environment answers a request with a value or with an exception,
    and may take the whole history of requests into account, so that any
    single run of the script against a browser is the run against some
    environment.  An operator interrupt is an exception of the request
    during which it arrives, a pause of [time.sleep] included.  Strings
    are sequences of characters with code points below 256; paths are
    POSIX paths. *)

From Stdlib Require Import ZArith List String Ascii Bool Lia DecimalString.
From Equations Require Import Equations.
From Equations.Prop Require Import Logic.
Import ListNotations.

Local Open Scope string_scope.
Local Open Scope Z_scope.

(** ** Python strings and paths *)

Module PyStr.

(** [str(n)] for an [int]. *)
Definition str_of_int (z : Z) : string := NilZero.string_of_int (Z.to_int z).

(** [s.replace(old, new)] for one-character [old] and [new]. *)
Fixpoint replace (old new : ascii) (s : string) : string :=
  match s with
  | EmptyString => EmptyString
  | String c s' =>
      String (if Ascii.eqb c old then new else c) (replace old new s')
  end.

(** [str.isspace] on the code points below 256. *)
Definition isspace (c : ascii) : bool :=
  let n := N_of_ascii c in
  ((9 <=? n) && (n <=? 13) || (28 <=? n) && (n <=? 32)
   || (n =? 133) || (n =? 160))%N.

Fixpoint lstrip (s : string) : string :=
  match s with
  | EmptyString => EmptyString
  | String c s' => if isspace c then lstrip s' else s
  end.

Fixpoint rstrip (s : string) : string :=
  match s with
  | EmptyString => EmptyString
  | String c s' =>
      match rstrip s' with
      | EmptyString => if isspace c then EmptyString else String c EmptyString
      | r => String c r
      end
  end.

(** [s.strip()] *)
Definition strip (s : string) : string := rstrip (lstrip s).

(** Truth value of a [str]: non-empty. *)
Definition truthy (s : string) : bool :=
  match s with EmptyString => false | _ => true end.

Definition startswith_sep (s : string) : bool :=
  match s with String c _ => Ascii.eqb c "/" | EmptyString => false end.

Fixpoint endswith_sep (s : string) : bool :=
  match s with
  | EmptyString => false
  | String c EmptyString => Ascii.eqb c "/"
  | String _ s' => endswith_sep s'
  end.

(** [os.path.join(a, b)] of [posixpath]. *)
Definition path_join (a b : string) : string :=
  if startswith_sep b then b
  else if negb (truthy a) || endswith_sep a then a ++ b
  else a ++ "/" ++ b.

(** [p[:p.rfind('/') + 1]] *)
Fixpoint upto_last_sep (p : string) : string :=
  match p with
  | EmptyString => EmptyString
  | String c p' =>
      match upto_last_sep p' with
      | EmptyString => if Ascii.eqb c "/" then String c EmptyString else EmptyString
      | h => String c h
      end
  end.

Fixpoint all_sep (s : string) : bool :=
  match s with
  | EmptyString => true
  | String c s' => Ascii.eqb c "/" && all_sep s'
  end.

Fixpoint rstrip_sep (s : string) : string :=
  match s with
  | EmptyString => EmptyString
  | String c s' =>
      match rstrip_sep s' with
      | EmptyString => if Ascii.eqb c "/" then EmptyString else String c EmptyString
      | r => String c r
      end
  end.

(** [os.path.dirname(p)] of [posixpath]. *)
Definition dirname (p : string) : string :=
  let head := upto_last_sep p in
  if truthy head && negb (all_sep head) then rstrip_sep head else head.

(** [n] zeros in front of [s]. *)
Fixpoint zeros_before (n : nat) (s : string) : string :=
  match n with
  | O => s
  | S n' => String "0" (zeros_before n' s)
  end.

(** Zero padding to [width] digits, as [strftime] pads the fields of a
    date ([%m], [%d], [%H], [%M], [%S]; [%Y] has its four digits for
    every year [datetime.now()] returns). *)
Definition zpad (width : nat) (z : Z) : string :=
  let s := str_of_int z in
  zeros_before (width - String.length s) s.

(** [f"{n/1024:.1f}"] for a file size [n]: [n/1024] is exact in binary
    floating point (below 2^53), and the format rounds the exact value
    to one decimal, ties to even. *)
Definition fmt_kb (n : Z) : string :=
  let t := n * 10 in
  let q := t / 1024 in
  let r := t mod 1024 in
  let q' := if (512 <? r) || ((r =? 512) && Z.odd q) then q + 1 else q in
  str_of_int (q' / 10) ++ "." ++ str_of_int (q' mod 10).

(** Two lower-case hexadecimal digits, as in a [\xNN] escape. *)
Definition hex_digit (n : N) : ascii :=
  ascii_of_N (if (n <? 10)%N then 48 + n else 87 + n)%N.

Definition hex2 (n : N) : string :=
  String (hex_digit (n / 16)%N) (String (hex_digit (n mod 16)%N) EmptyString).

Fixpoint contains (c : ascii) (s : string) : bool :=
  match s with
  | EmptyString => false
  | String c' s' => Ascii.eqb c c' || contains c s'
  end.

Definition backslash : string := String (ascii_of_nat 92) EmptyString.
Definition apostrophe : ascii := ascii_of_nat 39.
Definition double_quote : ascii := ascii_of_nat 34.

(** [str.isprintable] on the code points from 128 to 255. *)
Definition printable_high (n : N) : bool :=
  ((160 <? n) && negb (n =? 173))%N.

(** One character inside [repr(s)], for the chosen quote. *)
Definition repr_char (quote c : ascii) : string :=
  let n := N_of_ascii c in
  if Ascii.eqb c quote || (n =? 92)%N then backslash ++ String c EmptyString
  else if (n =? 9)%N then backslash ++ "t"
  else if (n =? 10)%N then backslash ++ "n"
  else if (n =? 13)%N then backslash ++ "r"
  else if (n <? 32)%N || (n =? 127)%N then backslash ++ "x" ++ hex2 n
  else if (n <? 127)%N then String c EmptyString
  else if printable_high n then String c EmptyString
  else backslash ++ "x" ++ hex2 n.

Fixpoint repr_chars (quote : ascii) (s : string) : string :=
  match s with
  | EmptyString => EmptyString
  | String c s' => repr_char quote c ++ repr_chars quote s'
  end.

(** [repr(s)] for a [str]: single quotes, unless the string has an
    apostrophe and no double quote; backslashes, the quote and what is
    not printable are escaped. *)
Definition repr (s : string) : string :=
  let quote := if contains apostrophe s && negb (contains double_quote s)
               then double_quote else apostrophe in
  String quote (repr_chars quote s ++ String quote EmptyString).

(** [repr(l)] for a list of [str], which is also [str(l)]. *)
Definition repr_list (l : list string) : string :=
  "[" ++ String.concat ", " (map repr l) ++ "]".

End PyStr.

(** ** Exceptions *)

(** The exception classes the script names or can meet.  All of them
    except [KeyboardInterrupt] derive from [Exception]; the two Selenium
    classes the script raises itself derive from [WebDriverException]. *)
Inductive exn_class : Type :=
| TimeoutException
| NoSuchElementException
| WebDriverException
| CalledProcessError
| OSError
| EOFError
| OtherException
| KeyboardInterrupt.

(** An exception: its class and message, and for the Selenium classes
    the screenshot flag and the stack trace that the driver may attach. *)
Record exn : Type := Exn {
  exn_cls : exn_class;
  exn_msg : string;
  exn_screen : bool;
  exn_stacktrace : list string
}.

(** An exception built from a message alone, as the script builds its
    own: [TimeoutException("...")], [NoSuchElementException("...")].
    [exn_msg] is the message the exception was built with. *)
Definition mk_exn (cls : exn_class) (msg : string) : exn := Exn cls msg false [].

(** [isinstance(e, WebDriverException)] *)
Definition is_WebDriverException (e : exn) : bool :=
  match exn_cls e with
  | TimeoutException | NoSuchElementException | WebDriverException => true
  | _ => false
  end.

(** [isinstance(e, Exception)] *)
Definition is_Exception (e : exn) : bool :=
  match exn_cls e with KeyboardInterrupt => false | _ => true end.

(** [isinstance(e, TimeoutException)] *)
Definition is_TimeoutException (e : exn) : bool :=
  match exn_cls e with TimeoutException => true | _ => false end.

(** [isinstance(e, subprocess.CalledProcessError)] *)
Definition is_CalledProcessError (e : exn) : bool :=
  match exn_cls e with CalledProcessError => true | _ => false end.

(** [isinstance(e, KeyboardInterrupt)] *)
Definition is_KeyboardInterrupt (e : exn) : bool :=
  match exn_cls e with KeyboardInterrupt => true | _ => false end.

(** [str(e)].  Selenium's [WebDriverException.__str__] prints the
    message after "Message: " on a line of its own, then the screenshot
    notice and the stack trace when there are any; the other classes
    print their message.  Selenium releases that append a link to their
    documentation to the message of some classes do so when the
    exception is built: for an exception of the driver the link is part
    of [exn_msg]; for the [NoSuchElementException] the script builds
    itself the link is left out, and no statement below gives the text
    of that exception. *)
Definition str_exn (e : exn) : string :=
  if is_WebDriverException e then
    "Message: " ++ exn_msg e ++ String (ascii_of_nat 10) EmptyString
    ++ (if exn_screen e
        then "Screenshot: available via screen" ++ String (ascii_of_nat 10) EmptyString
        else "")
    ++ (match exn_stacktrace e with
        | [] => ""
        | lines =>
            "Stacktrace:" ++ String (ascii_of_nat 10) EmptyString
            ++ String.concat (String (ascii_of_nat 10) EmptyString) lines
        end)
  else exn_msg e.

(** ** Requests to the environment *)

Definition element := nat.

Inductive by_ : Type := By_ID | By_CSS_SELECTOR.

(** The expected conditions handed to [WebDriverWait.until]. *)
Inductive condition : Type :=
| element_to_be_clickable (how : by_) (what : string)
| presence_of_element_located (how : by_) (what : string).

Inductive keys : Type :=
| Text (s : string)
| Keys_RETURN.

(** What [datetime.now()] returns. *)
Record datetime : Type := mk_datetime {
  year : Z; month : Z; day : Z; hour : Z; minute : Z; second : Z
}.

Inductive request : Type :=
| Input (prompt : string)
| Chrome (arguments : list string)
| Get (url : string)
| UntilReady (timeout : Z)
| Until (timeout : Z) (c : condition)
| Click (el : element)
| IsDisplayed (el : element)
| Clear (el : element)
| SendKeys (el : element) (k : keys)
| ExecuteScript (script : string)
| PageSource
| SaveScreenshot (path : string)
| DriverQuit
| Getcwd
| Makedirs (path : string) (exist_ok : bool)
| Now
| FileOpen (path mode encoding : string)
| FileWrite (path text : string)
| FileClose (path : string)
| Exists (path : string)
| Getsize (path : string)
| Sleep (seconds : Z)
| Run (args : list string).

(** The type of the value each request answers with. *)
Definition answer (r : request) : Type :=
  match r with
  | Input _ => string
  | Until _ _ => element
  | IsDisplayed _ => bool
  | PageSource => string
  | SaveScreenshot _ => bool
  | Getcwd => string
  | Now => datetime
  | Exists _ => bool
  | Getsize _ => Z
  | Run _ => Z
  | _ => unit
  end.

Inductive outcome (A : Type) : Type :=
| Ret (a : A)
| Raise (e : exn).
Arguments Ret {A} a.
Arguments Raise {A} e.

(** The environment: given the requests made so far, how the next one
    is answered. *)
Definition Env : Type := list request -> forall r : request, outcome (answer r).

(** ** The monad of the script *)

Inductive level : Type := INFO | WARNING | ERROR.

Record world : Type := mk_world {
  trace : list request;            (* requests made, oldest first *)
  log : list (level * string)      (* log records, oldest first *)
}.

Definition empty_world : world := mk_world [] [].

Definition M (A : Type) : Type := world -> outcome A * world.

Definition ret {A} (a : A) : M A := fun w => (Ret a, w).

Definition bind {A B} (c : M A) (k : A -> M B) : M B :=
  fun w =>
    match c w with
    | (Ret a, w') => k a w'
    | (Raise e, w') => (Raise e, w')
    end.

Definition raise {A} (e : exn) : M A := fun w => (Raise e, w).

Notation "x <- c ;; k" := (bind c (fun x => k))
  (at level 61, c at next level, right associativity).
Notation "c ;; k" := (bind c (fun _ => k))
  (at level 61, right associativity).

(** [try: c except <catches> as e: h e] *)
Definition try_except {A} (c : M A) (catches : exn -> bool) (h : exn -> M A) : M A :=
  fun w =>
    match c w with
    | (Ret a, w') => (Ret a, w')
    | (Raise e, w') => if catches e then h e w' else (Raise e, w')
    end.

(** [try: c finally: f]; an exception of [f] replaces the outcome of [c]. *)
Definition try_finally {A} (c : M A) (f : M unit) : M A :=
  fun w =>
    let '(o, w') := c w in
    match f w' with
    | (Ret _, w'') => (o, w'')
    | (Raise e, w'') => (Raise e, w'')
    end.

Definition record_request (r : request) (w : world) : world :=
  mk_world (trace w ++ [r]) (log w).

Definition record_log (l : level) (msg : string) (w : world) : world :=
  mk_world (trace w) (log w ++ [(l, msg)]).

(** [logging.info], [logging.warning], [logging.error] *)
Definition logging (l : level) (msg : string) : M unit :=
  fun w => (Ret tt, record_log l msg w).

Section Script.

Variable env : Env.

(** A call that leaves the script: recorded, and answered by the
    environment with a value or an exception. *)
Definition call (r : request) : M (answer r) :=
  fun w => (env (trace w) r, record_request r w).

(** A call that is recorded and cannot fail.  [driver.quit()] is such
    a call here (Chrome's [quit] swallows what goes wrong), and so is
    [logging]. *)
Definition emit (r : request) : M unit :=
  fun w => (Ret tt, record_request r w).

(** [time.sleep(seconds)]: a pause can be interrupted. *)
Definition time_sleep (seconds : Z) : M unit := call (Sleep seconds).

(** [os.path.exists] answers [False] where the lookup fails. *)
Definition os_path_exists (path : string) : M bool :=
  fun w =>
    (Ret (match env (trace w) (Exists path) with Ret b => b | Raise _ => false end),
     record_request (Exists path) w).

(** [with open(path, 'w', encoding='utf-8') as f: body] *)
Definition with_open {A} (path : string) (body : M A) : M A :=
  call (FileOpen path "w" "utf-8") ;;
  try_finally body (call (FileClose path)).

Definition strftime_Ymd_HMS (d : datetime) : string :=
  PyStr.zpad 4 (year d) ++ PyStr.zpad 2 (month d) ++ PyStr.zpad 2 (day d)
  ++ "_" ++ PyStr.zpad 2 (hour d) ++ PyStr.zpad 2 (minute d)
  ++ PyStr.zpad 2 (second d).

(** The dict [save_webpage] returns. *)
Record capture : Type := mk_capture {
  html_path : string;
  screenshot_path : option string
}.

Definition doctype_line : string :=
  "<!DOCTYPE html>" ++ String (ascii_of_nat 10) EmptyString.

Definition base_filename (search_query timestamp : string) : string :=
  "ticketmaster_" ++ PyStr.replace " " "_" search_query ++ "_" ++ timestamp.

(** Lines 26-56 of [save_webpage]: name the files, write the HTML,
    take the screenshot.  The result is [html_filepath] and
    [screenshot_path]. *)
Definition write_files (search_query : string) (take_screenshot : bool)
  : M (string * option string) :=
  current_dir <- call Getcwd ;;
  let outputs_dir := PyStr.path_join current_dir "outputs" in
  call (Makedirs outputs_dir true) ;;
  now <- call Now ;;
  let timestamp := strftime_Ymd_HMS now in
  let base := base_filename search_query timestamp in
  let html_filename := base ++ ".html" in
  let html_filepath := PyStr.path_join outputs_dir html_filename in
  logging INFO ("Saving HTML to directory: " ++ outputs_dir) ;;
  logging INFO ("HTML Filename: " ++ html_filename) ;;
  page_source <- call PageSource ;;
  with_open html_filepath
    (call (FileWrite html_filepath doctype_line) ;;
     call (FileWrite html_filepath page_source)) ;;
  screenshot_path <-
    (if take_screenshot then
       let screenshot_filename := base ++ ".png" in
       let path := PyStr.path_join outputs_dir screenshot_filename in
       call (SaveScreenshot path) ;;
       logging INFO ("Screenshot saved: " ++ path) ;;
       ret (Some path)
     else ret None) ;;
  ret (html_filepath, screenshot_path).

(** Lines 58-73 of [save_webpage]: the check of what was written. *)
Definition verify_saved (html_filepath : string) (screenshot_path : option string)
  : M (option capture) :=
  found <- os_path_exists html_filepath ;;
  if found then
    file_size <- call (Getsize html_filepath) ;;
    if 0 <? file_size then
      logging INFO ("HTML file saved successfully! Size: "
                    ++ PyStr.fmt_kb file_size ++ " KB") ;;
      logging INFO ("Full path: " ++ html_filepath) ;;
      ret (Some (mk_capture html_filepath screenshot_path))
    else
      logging WARNING "HTML file was created but is empty" ;;
      ret None
  else
    logging ERROR "HTML file was not created" ;;
    ret None.

(** The body of the [try] of [save_webpage]. *)
Definition save_webpage_body (search_query : string) (take_screenshot : bool)
  : M (option capture) :=
  written <- write_files search_query take_screenshot ;;
  verify_saved (fst written) (snd written).

Definition save_webpage (search_query : string) (take_screenshot : bool)
  : M (option capture) :=
  try_except (save_webpage_body search_query take_screenshot)
    is_Exception
    (fun e => logging ERROR ("Error saving webpage: " ++ str_exn e) ;; ret None).


(** [wait_for_page_load(driver, timeout)]: the poll of
    [document.readyState] is the library's; only its timeout is caught. *)
Definition wait_for_page_load (timeout : Z) : M bool :=
  try_except (call (UntilReady timeout) ;; ret true)
    is_TimeoutException
    (fun _ => logging WARNING "Page load timeout" ;; ret false).

(** The double quote inside the CSS selectors. *)
Definition dq : string := String (ascii_of_nat 34) EmptyString.

(** A bare [except:] catches everything. *)
Definition anything (e : exn) : bool := true.

(** How one round of a [for] loop ends. *)
Inductive flow : Type := Break | Continue.

(** Lines 104-111: navigation and the first ready-state wait. *)
Definition load_site : M unit :=
  logging INFO "Loading Ticketmaster..." ;;
  call (Get "https://www.ticketmaster.com") ;;
  loaded <- wait_for_page_load 30 ;;
  (if loaded then ret tt
   else raise (mk_exn TimeoutException "Page failed to load")) ;;
  time_sleep 2.

(** Lines 113-119: the cookie banner, if there is one. *)
Definition handle_cookie_consent : M unit :=
  try_except
    (cookie_button <-
       call (Until 20 (element_to_be_clickable By_ID "onetrust-accept-btn-handler")) ;;
     call (Click cookie_button) ;;
     time_sleep 1)
    anything
    (fun _ => logging INFO "No cookie consent popup found").

Definition search_selectors : list string :=
  [ "input[aria-label=" ++ dq ++ "Search" ++ dq ++ "]";
    "input[placeholder=" ++ dq ++ "Search by Artist, Event or Venue" ++ dq ++ "]";
    "input[type=" ++ dq ++ "search" ++ dq ++ "]";
    "[data-testid=" ++ dq ++ "search-input" ++ dq ++ "]";
    ".search-input" ].

(** One round of the loop of lines 131-137.  The assignment to
    [search_input] is made as soon as [wait.until] returns, before
    [is_displayed] is asked, and it is not undone by the handler. *)
Definition try_search_selector (selector : string) (search_input : option element)
  : M (flow * option element) :=
  try_except
    (found <- call (Until 20 (element_to_be_clickable By_CSS_SELECTOR selector)) ;;
     try_except
       (displayed <- call (IsDisplayed found) ;;
        ret (if displayed then Break else Continue, Some found))
       anything
       (fun _ => ret (Continue, Some found)))
    anything
    (fun _ => ret (Continue, search_input)).

(** Lines 130-137: the value of [search_input] when the loop is left. *)
Fixpoint find_search_input (selectors : list string) (search_input : option element)
  : M (option element) :=
  match selectors with
  | [] => ret search_input
  | selector :: rest =>
      r <- try_search_selector selector search_input ;;
      match r with
      | (Break, search_input') => ret search_input'
      | (Continue, search_input') => find_search_input rest search_input'
      end
  end.

(** Lines 130-140. *)
Definition locate_search_input (selectors : list string) : M element :=
  search_input <- find_search_input selectors None ;;
  match search_input with
  | Some el => ret el
  | None => raise (mk_exn NoSuchElementException "Could not find search input")
  end.

(** Lines 142-146. *)
Definition perform_search (search_input : element) (search_query : string) : M unit :=
  logging INFO "Entering search query..." ;;
  call (Clear search_input) ;;
  call (SendKeys search_input (Text search_query)) ;;
  call (SendKeys search_input Keys_RETURN).

Definition result_selectors : list string :=
  [ "[data-testid=" ++ dq ++ "event-card" ++ dq ++ "]";
    "[data-testid=" ++ dq ++ "search-results" ++ dq ++ "]";
    ".event-listing";
    ".search-results";
    ".event-list";
    "[class*=" ++ dq ++ "event-" ++ dq ++ "]";
    "[class*=" ++ dq ++ "result-" ++ dq ++ "]" ].

(** Lines 159-167: the value of [results_found] when the loop is left. *)
Fixpoint find_results (selectors : list string) : M bool :=
  match selectors with
  | [] => ret false
  | selector :: rest =>
      r <- try_except
             (call (Until 20 (presence_of_element_located By_CSS_SELECTOR selector)) ;;
              logging INFO "Search results found" ;;
              ret Break)
             anything
             (fun _ => ret Continue) ;;
      match r with
      | Break => ret true
      | Continue => find_results rest
      end
  end.

(** Lines 159-170. *)
Definition confirm_results (selectors : list string) : M unit :=
  results_found <- find_results selectors ;;
  if results_found then ret tt
  else logging WARNING "Could not confirm results - will try to save anyway".

(** Lines 172-181: second ready-state wait, then scroll down and up. *)
Definition settle_results_page : M unit :=
  loaded <- wait_for_page_load 30 ;;
  (if loaded then ret tt
   else raise (mk_exn TimeoutException "Search results page failed to load")) ;;
  logging INFO "Loading all content..." ;;
  call (ExecuteScript "window.scrollTo(0, document.body.scrollHeight);") ;;
  time_sleep 2 ;;
  call (ExecuteScript "window.scrollTo(0, 0);") ;;
  time_sleep 1.

(** Lines 187-194: what the attempt returns for the value of
    [save_webpage]. *)
Definition report_saved (saved_files : option capture) : M (option capture) :=
  match saved_files with
  | Some files =>
      still_there <- os_path_exists (html_path files) ;;
      if still_there then
        logging INFO "Success! Files saved:" ;;
        logging INFO ("HTML: " ++ html_path files) ;;
        match screenshot_path files with
        | Some p => if PyStr.truthy p then logging INFO ("Screenshot: " ++ p) else ret tt
        | None => ret tt
        end ;;
        ret (Some files)
      else ret None
  | None => ret None
  end.

(** Lines 183-194. *)
Definition persist_page (search_query : string) : M (option capture) :=
  logging INFO "Saving webpage..." ;;
  saved_files <- save_webpage search_query true ;;
  report_saved saved_files.

(** Lines 104-146: from the navigation to the submitted query. *)
Definition submit_search (search_query : string) : M unit :=
  load_site ;;
  handle_cookie_consent ;;
  search_input <- locate_search_input search_selectors ;;
  perform_search search_input search_query.

(** Lines 104-181: all of the [try] body before the page is saved. *)
Definition reach_results (search_query : string) : M unit :=
  submit_search search_query ;;
  confirm_results result_selectors ;;
  settle_results_page.

(** The body of the [try] of the retry loop, lines 104-194.  It ends in
    a [return] or in an exception, never by falling through. *)
Definition attempt (search_query : string) : M (option capture) :=
  reach_results search_query ;;
  persist_page search_query.

(** How one round of the [while] loop ends. *)
Inductive round_end : Type :=
| Returns (v : option capture)       (* a [return] statement was reached *)
| Again (retry_count : Z)            (* control falls back to the loop test *)
| Propagates (e : exn).              (* an exception nobody caught *)

(** The [try]/[except Exception] of lines 103-204: how the round ends
    and the value of [retry_count] afterwards.  An exception of the
    pause before the next attempt is raised inside the handler, so no
    clause of this [try] catches it. *)
Definition try_attempt (search_query : string) (max_retries retry_count : Z)
  : world -> (round_end * Z) * world :=
  fun w =>
    match attempt search_query w with
    | (Ret v, w1) => ((Returns v, retry_count), w1)
    | (Raise e, w1) =>
        if is_Exception e then
          let w2 := record_log ERROR
                      ("Attempt " ++ PyStr.str_of_int (retry_count + 1)
                       ++ " failed: " ++ str_exn e) w1 in
          let retry_count := retry_count + 1 in
          if retry_count <=? max_retries then
            let w3 := record_log INFO
                        ("Retrying... (Attempt "
                         ++ PyStr.str_of_int (retry_count + 1) ++ ")") w2 in
            match time_sleep 2 w3 with
            | (Ret _, w4) => ((Again retry_count, retry_count), w4)
            | (Raise e', w4) => ((Propagates e', retry_count), w4)
            end
          else
            ((Returns None, retry_count),
             record_log ERROR "Max retries reached. Giving up." w2)
        else ((Propagates e, retry_count), w1)
    end.

(** The [finally] of lines 206-209, run with the [retry_count] the
    handler left. *)
Definition finally_close (max_retries retry_count : Z) (w : world) : world :=
  if (retry_count =? max_retries) || (retry_count =? 0) then
    record_request DriverQuit (record_log INFO "Closing browser..." w)
  else w.

(** One round of the [while] loop: [try], [except], [finally]. *)
Definition round (search_query : string) (max_retries retry_count : Z)
  : world -> round_end * world :=
  fun w =>
    let '((how, retry_count'), w') :=
      try_attempt search_query max_retries retry_count w in
    (how, finally_close max_retries retry_count' w').

(** The [while retry_count <= max_retries] loop of lines 102-209; a
    loop left by its test makes the function return [None]. *)
Equations? retry_loop (search_query : string) (max_retries retry_count : Z)
  (w : world) : outcome (option capture) * world
  by wf (Z.to_nat (max_retries + 1 - retry_count)) lt :=
  retry_loop search_query max_retries retry_count w
    with inspect (retry_count <=? max_retries) => {
    | exist _ false _ => (Ret None, w)
    | exist _ true Htest
        with inspect (round search_query max_retries retry_count w) => {
        | exist _ (Returns v, w') _ => (Ret v, w')
        | exist _ (Propagates e, w') _ => (Raise e, w')
        | exist _ (Again rc', w') Hround =>
            retry_loop search_query max_retries rc' w' } }.
Proof.
  apply Z.leb_le in Htest.
  unfold round, try_attempt in Hround.
  destruct (attempt search_query w) as [[v|e] w1]; [discriminate|].
  destruct (is_Exception e); [|discriminate].
  destruct (retry_count + 1 <=? max_retries) eqn:E; [|discriminate].
  destruct (time_sleep 2 _) as [[[]|e'] w4]; [|discriminate].
  inversion Hround; subst. apply Z.leb_le in E. lia.
Qed.

(** The arguments added to [ChromeOptions], lines 94-97. *)
Definition chrome_arguments : list string :=
  ["--start-maximized"; "--disable-notifications"; "--disable-popup-blocking"].

(** [search_and_save_page(search_query, max_retries)] *)
Definition search_and_save_page (search_query : string) (max_retries : Z)
  : M (option capture) :=
  logging INFO ("Starting search for: " ++ search_query) ;;
  call (Chrome chrome_arguments) ;;
  retry_loop search_query max_retries 0.

(** [sys.executable] and [os.path.abspath(__file__)]: fixed when the
    interpreter starts. *)
Variable sys_executable : string.
Variable script_file : string.

(** The signals the platform names: [signal_repr n] is
    [repr(signal.Signals(n))], such as [<Signals.SIGKILL: 9>], and
    [None] where [signal.Signals(n)] raises [ValueError]. *)
Variable signal_repr : Z -> option string.

(** The command as [CalledProcessError.__str__] prints it: [str] of the
    argument list. *)
Definition repr_args (args : list string) : string := PyStr.repr_list args.

(** [str(e)] for [CalledProcessError(returncode, args)]: a negative
    return code is the number of the signal that ended the child. *)
Definition called_process_error_text (args : list string) (returncode : Z) : string :=
  if returncode <? 0 then
    match signal_repr (- returncode) with
    | Some name => "Command '" ++ repr_args args ++ "' died with " ++ name ++ "."
    | None =>
        "Command '" ++ repr_args args ++ "' died with unknown signal "
        ++ PyStr.str_of_int (- returncode) ++ "."
    end
  else
    "Command '" ++ repr_args args ++ "' returned non-zero exit status "
    ++ PyStr.str_of_int returncode ++ ".".

(** [subprocess.run(args, check=True)]: waits for the child and raises
    [CalledProcessError] on a non-zero return code. *)
Definition subprocess_run_check (args : list string) : M unit :=
  returncode <- call (Run args) ;;
  if returncode =? 0 then ret tt
  else raise (mk_exn CalledProcessError
                (called_process_error_text args returncode)).

(** [try: c except <c1> as e: h1 e except <c2> as e: h2 e] *)
Definition try_except2 {A} (c : M A)
    (c1 : exn -> bool) (h1 : exn -> M A)
    (c2 : exn -> bool) (h2 : exn -> M A) : M A :=
  fun w =>
    match c w with
    | (Ret a, w') => (Ret a, w')
    | (Raise e, w') =>
        if c1 e then h1 e w'
        else if c2 e then h2 e w'
        else (Raise e, w')
    end.

(** [execute_crawler()] *)
Definition execute_crawler : M unit :=
  logging INFO "Starting crawler process..." ;;
  try_except2
    (let current_dir := PyStr.dirname script_file in
     let crawler_path := PyStr.path_join current_dir "crawler.py" in
     subprocess_run_check [sys_executable; crawler_path] ;;
     logging INFO "Crawler process completed successfully")
    is_CalledProcessError
    (fun e => logging ERROR ("Error executing crawler: " ++ str_exn e))
    is_Exception
    (fun e => logging ERROR ("Unexpected error while executing crawler: "
                             ++ str_exn e)).

Definition newline : string := String (ascii_of_nat 10) EmptyString.

Definition input_prompt : string :=
  newline ++ "Enter search query (Artist, Event or Venue): ".

(** The [__main__] block. *)
Definition main : M unit :=
  try_except2
    (line <- call (Input input_prompt) ;;
     let query := PyStr.strip line in
     if PyStr.truthy query then
       saved_files <- search_and_save_page query 2 ;;
       match saved_files with
       | Some _ => execute_crawler
       | None =>
           logging ERROR
             "Failed to save the webpage. Please check the logs for details."
       end
     else logging ERROR "Search query cannot be empty")
    is_KeyboardInterrupt
    (fun _ => logging INFO (newline ++ "Operation cancelled by user"))
    is_Exception
    (fun e => logging ERROR ("Unexpected error: " ++ str_exn e)).

End Script.

(** ** What a run leaves behind *)

Definition is_Get (r : request) : bool :=
  match r with Get _ => true | _ => false end.
Definition is_DriverQuit (r : request) : bool :=
  match r with DriverQuit => true | _ => false end.
Definition is_Chrome (r : request) : bool :=
  match r with Chrome _ => true | _ => false end.
Definition is_Run (r : request) : bool :=
  match r with Run _ => true | _ => false end.
Definition is_FileOpen (r : request) : bool :=
  match r with FileOpen _ _ _ => true | _ => false end.

Definition count (p : request -> bool) (t : list request) : nat :=
  List.length (filter p t).

(** Every attempt starts with one [driver.get], and nothing else
    navigates: the attempts of a run are its navigations. *)
Definition attempts (w : world) : nat := count is_Get (trace w).
(** Calls of [driver.quit()]. *)
Definition teardowns (w : world) : nat := count is_DriverQuit (trace w).
(** Browser sessions started. *)
Definition sessions (w : world) : nat := count is_Chrome (trace w).
(** Child processes started. *)
Definition launches (w : world) : nat := count is_Run (trace w).

(** The files a list of requests leaves on disk, with their text:
    [open(.., 'w')] creates or truncates, [write] appends. *)
Fixpoint append_to (path text : string) (files : list (string * string))
  : list (string * string) :=
  match files with
  | [] => []
  | (p, t) :: rest =>
      if String.eqb p path then (p, t ++ text) :: rest
      else (p, t) :: append_to path text rest
  end.

Fixpoint written_files (t : list request) (files : list (string * string))
  : list (string * string) :=
  match t with
  | [] => files
  | FileOpen p _ _ :: t' =>
      written_files t'
        (if existsb (fun f => String.eqb (fst f) p) files
         then map (fun f => if String.eqb (fst f) p then (p, "") else f) files
         else files ++ [(p, "")])
  | FileWrite p text :: t' => written_files t' (append_to p text files)
  | _ :: t' => written_files t' files
  end.

(** [quiet p c]: running [c] makes no request that [p] selects. *)
Definition quiet (p : request -> bool) {A} (c : M A) : Prop :=
  forall w, count p (trace (snd (c w))) = count p (trace w).

(** [adds p n c]: running [c] makes exactly [n] requests that [p]
    selects, however it ends. *)
Definition adds (p : request -> bool) (n : nat) {A} (c : M A) : Prop :=
  forall w, count p (trace (snd (c w))) = (count p (trace w) + n)%nat.

(** ** Environments to run the script in *)

Module Sample.

Definition a_moment : datetime := mk_datetime 2024 3 9 7 5 42.

Definition plain (r : request) : answer r :=
  match r return answer r with
  | Input _ => "Adele"
  | Until _ _ => 7%nat
  | IsDisplayed _ => true
  | PageSource => "<html><body>events</body></html>"
  | SaveScreenshot _ => true
  | Getcwd => "/srv/scraper"
  | Now => a_moment
  | Exists _ => true
  | Getsize _ => 1536
  | Run _ => 0
  | _ => tt
  end.

Definition timed_out : exn := mk_exn TimeoutException "timeout".

(** Everything works at once. *)
Definition cooperative : Env := fun _ r => Ret (plain r).

(** The site never finishes loading. *)
Definition never_loads : Env :=
  fun _ r =>
    match r return outcome (answer r) with
    | UntilReady _ => Raise timed_out
    | r' => Ret (plain r')
    end.

(** The first navigation does not finish loading, later ones do. *)
Definition slow_start : Env :=
  fun h r =>
    match r return outcome (answer r) with
    | UntilReady _ =>
        if (count is_Get h <=? 1)%nat then Raise timed_out else Ret tt
    | r' => Ret (plain r')
    end.

(** The first search selector finds an element that is then reported
    as not displayed; the other selectors find nothing. *)
Definition hidden_search_box : Env :=
  fun _ r =>
    match r return outcome (answer r) with
    | Until _ (element_to_be_clickable By_CSS_SELECTOR what) =>
        if String.eqb what (hd "" search_selectors) then Ret 7%nat
        else Raise timed_out
    | IsDisplayed _ => Ret false
    | r' => Ret (plain r')
    end.

(** No search selector finds anything. *)
Definition no_search_box : Env :=
  fun _ r =>
    match r return outcome (answer r) with
    | Until _ (element_to_be_clickable By_CSS_SELECTOR _) => Raise timed_out
    | r' => Ret (plain r')
    end.

(** No result selector finds anything. *)
Definition no_result_cards : Env :=
  fun _ r =>
    match r return outcome (answer r) with
    | Until _ (presence_of_element_located _ _) => Raise timed_out
    | r' => Ret (plain r')
    end.


(** The operator interrupts while the page source is read. *)
Definition interrupted : Env :=
  fun _ r =>
    match r return outcome (answer r) with
    | PageSource => Raise (mk_exn KeyboardInterrupt "")
    | r' => Ret (plain r')
    end.



(** The operator enters nothing. *)
Definition empty_line : Env :=
  fun _ r =>
    match r return outcome (answer r) with
    | Input _ => Ret EmptyString
    | r' => Ret (plain r')
    end.

(** The crawler exits with status 1. *)
Definition crawler_fails : Env :=
  fun _ r =>
    match r return outcome (answer r) with
    | Run _ => Ret 1
    | r' => Ret (plain r')
    end.

Definition python : string := "/usr/bin/python3".
Definition this_file : string := "/srv/scraper/scraperio.py".

(** Some of the signals a Linux platform names. *)
Definition signals (n : Z) : option string :=
  if n =? 2 then Some "<Signals.SIGINT: 2>"
  else if n =? 9 then Some "<Signals.SIGKILL: 9>"
  else if n =? 11 then Some "<Signals.SIGSEGV: 11>"
  else if n =? 15 then Some "<Signals.SIGTERM: 15>"
  else None.

End Sample.

(** ** More ways to look at a run *)

Definition is_SaveScreenshot (r : request) : bool :=
  match r with SaveScreenshot _ => true | _ => false end.

(** The requests of lines 104-181: navigation, waits, clicks, keys,
    scripts and pauses. *)
Definition is_browsing (r : request) : bool :=
  match r with
  | Get _ | UntilReady _ | Until _ _ | Click _ | IsDisplayed _ | Clear _
  | SendKeys _ _ | ExecuteScript _ | Sleep _ => true
  | _ => false
  end.

(** The requests of [save_webpage] and of the check after it. *)
Definition is_persisting (r : request) : bool :=
  match r with
  | Getcwd | Makedirs _ _ | Now | PageSource | FileOpen _ _ _ | FileWrite _ _
  | FileClose _ | SaveScreenshot _ | Exists _ | Getsize _ => true
  | _ => false
  end.

Definition not_browsing (r : request) : bool := negb (is_browsing r).

(** [at_most p n c]: running [c] makes no more than [n] requests that
    [p] selects. *)
Definition at_most (p : request -> bool) (n : nat) {A} (c : M A) : Prop :=
  forall w, (count p (trace (snd (c w))) <= count p (trace w) + n)%nat.

Module Scenario.

(** Chrome cannot be started. *)
Definition no_browser : Env :=
  fun _ r =>
    match r return outcome (answer r) with
    | Chrome _ =>
        Raise (mk_exn WebDriverException "chromedriver executable not found")
    | r' => Ret (Sample.plain r')
    end.


(** The connection to the browser is lost while the page loads. *)
Definition connection_lost : Env :=
  fun _ r =>
    match r return outcome (answer r) with
    | UntilReady _ => Raise (mk_exn WebDriverException "disconnected")
    | r' => Ret (Sample.plain r')
    end.

(** The crawler script cannot be started at all. *)
Definition crawler_missing : Env :=
  fun _ r =>
    match r return outcome (answer r) with
    | Run _ => Raise (mk_exn OSError "[Errno 2] No such file or directory")
    | r' => Ret (Sample.plain r')
    end.


(** The crawler is killed. *)
Definition crawler_killed : Env :=
  fun _ r =>
    match r return outcome (answer r) with
    | Run _ => Ret (-9)
    | r' => Ret (Sample.plain r')
    end.

(** Standard input is closed. *)
Definition end_of_input : Env :=
  fun _ r =>
    match r return outcome (answer r) with
    | Input _ => Raise (mk_exn EOFError "EOF when reading a line")
    | r' => Ret (Sample.plain r')
    end.

End Scenario.

(** * Properties *)

(** ** Counting requests *)

Lemma count_app p (t u : list request) :
  count p (t ++ u) = (count p t + count p u)%nat.
Proof. unfold count. rewrite filter_app, length_app. reflexivity. Qed.

Lemma count_record_request p r w :
  count p (trace (record_request r w))
  = (count p (trace w) + if p r then 1 else 0)%nat.
Proof.
  unfold record_request; simpl. rewrite count_app. unfold count; simpl.
  destruct (p r); reflexivity.
Qed.

Lemma trace_record_log l msg w : trace (record_log l msg w) = trace w.
Proof. reflexivity. Qed.

Section Quiet.

Variable env : Env.
Variable p : request -> bool.

Lemma quiet_ret {A} (a : A) : quiet p (ret a).
Proof. intros w; reflexivity. Qed.

Lemma quiet_raise {A} e : quiet p (@raise A e).
Proof. intros w; reflexivity. Qed.

Lemma quiet_logging l msg : quiet p (logging l msg).
Proof. intros w; reflexivity. Qed.

Lemma quiet_call r : p r = false -> quiet p (call env r).
Proof.
  intros Hr w. unfold call. cbn [snd]. rewrite count_record_request, Hr. lia.
Qed.

Lemma quiet_emit r : p r = false -> quiet p (emit r).
Proof.
  intros Hr w. unfold emit. cbn [snd]. rewrite count_record_request, Hr. lia.
Qed.

Lemma quiet_exists path : p (Exists path) = false -> quiet p (os_path_exists env path).
Proof.
  intros Hr w. unfold os_path_exists. cbn [snd].
  rewrite count_record_request, Hr. lia.
Qed.

Lemma quiet_bind {A B} (c : M A) (k : A -> M B) :
  quiet p c -> (forall a, quiet p (k a)) -> quiet p (bind c k).
Proof.
  intros Hc Hk w. unfold bind. specialize (Hc w).
  destruct (c w) as [[a|e] w1]; simpl in *.
  - rewrite Hk. exact Hc.
  - exact Hc.
Qed.

Lemma quiet_try_except {A} (c : M A) catches h :
  quiet p c -> (forall e, quiet p (h e)) -> quiet p (try_except c catches h).
Proof.
  intros Hc Hh w. unfold try_except. specialize (Hc w).
  destruct (c w) as [[a|e] w1]; simpl in *; [exact Hc|].
  destruct (catches e); simpl; [rewrite Hh|]; exact Hc.
Qed.

Lemma quiet_try_except2 {A} (c : M A) c1 h1 c2 h2 :
  quiet p c -> (forall e, quiet p (h1 e)) -> (forall e, quiet p (h2 e)) ->
  quiet p (try_except2 c c1 h1 c2 h2).
Proof.
  intros Hc H1 H2 w. unfold try_except2. specialize (Hc w).
  destruct (c w) as [[a|e] w1]; simpl in *; [exact Hc|].
  destruct (c1 e); simpl; [rewrite H1; exact Hc|].
  destruct (c2 e); simpl; [rewrite H2|]; exact Hc.
Qed.

Lemma quiet_try_finally {A} (c : M A) f :
  quiet p c -> quiet p f -> quiet p (try_finally c f).
Proof.
  intros Hc Hf w. unfold try_finally. specialize (Hc w).
  destruct (c w) as [o w1]; simpl in *. specialize (Hf w1).
  destruct (f w1) as [[u|e] w2]; simpl in *; congruence.
Qed.

End Quiet.

(** Breaks a computation of the script into its calls. *)
Ltac quiet_step :=
  first
    [ apply quiet_ret | apply quiet_raise | apply quiet_logging
    | apply quiet_call; reflexivity
    | apply quiet_emit; reflexivity
    | apply quiet_exists; reflexivity
    | apply quiet_bind; [| intros ?]
    | apply quiet_try_except; [| intros ?]
    | apply quiet_try_except2; [| intros ? | intros ?]
    | apply quiet_try_finally
    | match goal with
      | |- quiet _ (if ?b then _ else _) => destruct b
      | |- quiet _ (match ?x with _ => _ end) => destruct x
      | |- quiet _ (let _ := _ in _) => cbv zeta
      end ].

Ltac quiet_auto := repeat quiet_step.

(** ** Requests of each part of the script *)

Section Footprint.

Variable env : Env.

(** Only [load_site] navigates, only [execute_crawler] starts a
    process: everything else is quiet for a [p] that selects nothing
    but navigations or process starts. *)
Variable p : request -> bool.
Hypothesis p_selects : forall r, p r = true -> is_Get r = true \/ is_Run r = true.

Lemma p_rejects r : is_Get r = false -> is_Run r = false -> p r = false.
Proof.
  intros HG HR. destruct (p r) eqn:E; [|reflexivity].
  destruct (p_selects r E); congruence.
Qed.

Local Ltac footprint :=
  repeat first [ quiet_step
               | apply quiet_call; apply p_rejects; reflexivity
               | apply quiet_emit; apply p_rejects; reflexivity
               | apply quiet_exists; apply p_rejects; reflexivity ].

Lemma quiet_wait_for_page_load timeout : quiet p (wait_for_page_load env timeout).
Proof. unfold wait_for_page_load. footprint. Qed.

Lemma quiet_handle_cookie_consent : quiet p (handle_cookie_consent env).
Proof. unfold handle_cookie_consent, time_sleep. footprint. Qed.

Lemma quiet_find_search_input selectors search_input :
  quiet p (find_search_input env selectors search_input).
Proof.
  revert search_input. induction selectors as [|s rest IH]; intros si; simpl.
  - footprint.
  - apply quiet_bind.
    + unfold try_search_selector. footprint.
    + intros [[|] si']; [footprint | apply IH].
Qed.

Lemma quiet_locate_search_input selectors :
  quiet p (locate_search_input env selectors).
Proof.
  unfold locate_search_input. apply quiet_bind.
  - apply quiet_find_search_input.
  - intros [el|]; footprint.
Qed.

Lemma quiet_find_results selectors : quiet p (find_results env selectors).
Proof.
  induction selectors as [|s rest IH]; simpl.
  - footprint.
  - apply quiet_bind; [footprint|]. intros [|]; [footprint | apply IH].
Qed.

Lemma quiet_confirm_results selectors : quiet p (confirm_results env selectors).
Proof.
  unfold confirm_results. apply quiet_bind; [apply quiet_find_results|].
  intros [|]; footprint.
Qed.

Lemma quiet_settle_results_page : quiet p (settle_results_page env).
Proof.
  unfold settle_results_page, time_sleep.
  apply quiet_bind; [apply quiet_wait_for_page_load|]. intros ?. footprint.
Qed.

Lemma quiet_save_webpage q shot : quiet p (save_webpage env q shot).
Proof.
  unfold save_webpage, save_webpage_body, write_files, verify_saved, with_open.
  footprint.
Qed.

Lemma quiet_persist_page q : quiet p (persist_page env q).
Proof.
  unfold persist_page. apply quiet_bind; [footprint|]. intros _.
  apply quiet_bind; [apply quiet_save_webpage|].
  intros [files|]; unfold report_saved; footprint.
Qed.

Lemma quiet_perform_search el q : quiet p (perform_search env el q).
Proof. unfold perform_search. footprint. Qed.

Lemma quiet_time_sleep n : quiet p (time_sleep env n).
Proof. unfold time_sleep. footprint. Qed.

End Footprint.

Lemma is_Get_selects r : is_Get r = true -> is_Get r = true \/ is_Run r = true.
Proof. auto. Qed.

Lemma is_Run_selects r : is_Run r = true -> is_Get r = true \/ is_Run r = true.
Proof. auto. Qed.

Lemma adds_bind_quiet p n {A B} (c : M A) (k : A -> M B) :
  adds p n c -> (forall a, quiet p (k a)) -> adds p n (bind c k).
Proof.
  intros Hc Hk w. unfold bind. specialize (Hc w).
  destruct (c w) as [[a|e] w1]; simpl in *.
  - rewrite Hk. exact Hc.
  - exact Hc.
Qed.

Section Navigation.

Variable env : Env.

Lemma load_site_navigates : adds is_Get 1 (load_site env).
Proof.
  intros w. unfold load_site.
  set (rest := _ <- wait_for_page_load env 30 ;; _).
  assert (Hrest : quiet is_Get rest).
  { subst rest. apply quiet_bind; [apply quiet_wait_for_page_load, is_Get_selects|].
    intros loaded. apply quiet_bind; [destruct loaded; quiet_auto|].
    intros _. apply quiet_time_sleep, is_Get_selects. }
  unfold bind at 1 2. unfold logging, call.
  destruct (env _ (Get _)) as [u|e]; cbn [snd].
  - rewrite Hrest. rewrite count_record_request. reflexivity.
  - rewrite count_record_request. reflexivity.
Qed.

Lemma submit_search_navigates q : adds is_Get 1 (submit_search env q).
Proof.
  unfold submit_search. apply adds_bind_quiet; [apply load_site_navigates|].
  intros _. apply quiet_bind; [apply quiet_handle_cookie_consent, is_Get_selects|].
  intros _. apply quiet_bind; [apply quiet_locate_search_input, is_Get_selects|].
  intros el. apply quiet_perform_search, is_Get_selects.
Qed.

Lemma reach_results_navigates q : adds is_Get 1 (reach_results env q).
Proof.
  unfold reach_results. apply adds_bind_quiet; [apply submit_search_navigates|].
  intros _. apply quiet_bind; [apply quiet_confirm_results, is_Get_selects|].
  intros _. apply quiet_settle_results_page, is_Get_selects.
Qed.

(** An attempt navigates exactly once, however it ends. *)
Lemma attempt_navigates q : adds is_Get 1 (attempt env q).
Proof.
  unfold attempt. apply adds_bind_quiet; [apply reach_results_navigates|].
  intros _. apply quiet_persist_page, is_Get_selects.
Qed.

(** No attempt starts a process. *)
Lemma attempt_launches_nothing q : quiet is_Run (attempt env q).
Proof.
  assert (Hload : quiet is_Run (load_site env)).
  { unfold load_site. apply quiet_bind; [quiet_auto|]. intros _.
    apply quiet_bind; [quiet_auto|]. intros _.
    apply quiet_bind; [apply quiet_wait_for_page_load, is_Run_selects|].
    intros loaded. apply quiet_bind; [destruct loaded; quiet_auto|].
    intros _. apply quiet_time_sleep, is_Run_selects. }
  unfold attempt, reach_results, submit_search.
  apply quiet_bind; [| intros _; apply quiet_persist_page, is_Run_selects].
  apply quiet_bind; [| intros _].
  - apply quiet_bind; [exact Hload | intros _].
    apply quiet_bind; [apply quiet_handle_cookie_consent, is_Run_selects | intros _].
    apply quiet_bind; [apply quiet_locate_search_input, is_Run_selects | intros el].
    apply quiet_perform_search, is_Run_selects.
  - apply quiet_bind; [apply quiet_confirm_results, is_Run_selects | intros _].
    apply quiet_settle_results_page, is_Run_selects.
Qed.

Lemma finally_close_count p max_retries rc w :
  p DriverQuit = false ->
  count p (trace (finally_close max_retries rc w)) = count p (trace w).
Proof.
  intros Hp. unfold finally_close.
  destruct ((rc =? max_retries) || (rc =? 0)); [|reflexivity].
  rewrite count_record_request, Hp, trace_record_log. lia.
Qed.

(** A round of the loop is one attempt: one navigation, no process. *)
Lemma round_count p n q max_retries rc w :
  adds p n (attempt env q) -> p DriverQuit = false -> p (Sleep 2) = false ->
  count p (trace (snd (round env q max_retries rc w)))
  = (count p (trace w) + n)%nat.
Proof.
  intros Hatt HQ HS. unfold round, try_attempt. specialize (Hatt w).
  destruct (attempt env q w) as [[v|e] w1]; cbn [snd] in *.
  - rewrite finally_close_count; assumption.
  - destruct (is_Exception e); cbn [snd].
    + destruct (rc + 1 <=? max_retries).
      * unfold time_sleep, call.
        destruct (env _ (Sleep 2)) as [[]|e']; cbn [snd];
          rewrite finally_close_count by assumption;
          rewrite count_record_request, HS, !trace_record_log; lia.
      * cbn [snd]. rewrite finally_close_count by assumption.
        rewrite !trace_record_log. lia.
    + rewrite finally_close_count; assumption.
Qed.

(** The loop, one round unfolded. *)
Lemma retry_loop_step q max_retries rc w :
  retry_loop env q max_retries rc w =
  if rc <=? max_retries then
    match round env q max_retries rc w with
    | (Returns v, w') => (Ret v, w')
    | (Propagates e, w') => (Raise e, w')
    | (Again rc', w') => retry_loop env q max_retries rc' w'
    end
  else (Ret None, w).
Proof.
  funelim (retry_loop env q max_retries rc w).
  all: try (rewrite <- Heqcall); repeat match goal with
       | H : _ = _ |- _ => rewrite H end; try reflexivity.
Qed.

End Navigation.

(** ** The retry loop *)

Section RetryLoop.

Variable env : Env.
Variable q : string.
Variable max_retries : Z.

(** Every attempt, from whatever state, ends in an exception that
    [except Exception] catches. *)
Hypothesis every_attempt_fails :
  forall w, exists e w',
    attempt env q w = (Raise e, w') /\ is_Exception e = true.

(** The pause that follows a failed attempt is not interrupted. *)
Hypothesis pause_completes :
  forall w e w',
    attempt env q w = (Raise e, w') -> env (trace w') (Sleep 2) = Ret tt.

Lemma failing_round rc w :
  exists w',
    round env q max_retries rc w
    = (if rc + 1 <=? max_retries then Again (rc + 1) else Returns None, w')
    /\ attempts w' = (attempts w + 1)%nat.
Proof.
  destruct (every_attempt_fails w) as (e & w1 & Hatt & He).
  pose proof (round_count env is_Get 1 q max_retries rc w
                (attempt_navigates env q) eq_refl eq_refl) as Hcount.
  pose proof (pause_completes w e w1 Hatt) as Hpause.
  unfold round, try_attempt, time_sleep, call in *. rewrite Hatt, He in *.
  rewrite !trace_record_log, Hpause in *.
  destruct (rc + 1 <=? max_retries); eexists; split;
    try reflexivity; exact Hcount.
Qed.


End RetryLoop.




(** ** Session teardown *)

(** The guard of the [finally] block, as a count. *)
Lemma finally_close_teardowns max_retries rc w :
  teardowns (finally_close max_retries rc w)
  = (teardowns w + if ((rc =? max_retries) || (rc =? 0))%Z then 1 else 0)%nat.
Proof.
  unfold teardowns, finally_close.
  destruct ((rc =? max_retries) || (rc =? 0)).
  - rewrite count_record_request, trace_record_log. reflexivity.
  - lia.
Qed.

(** C2.  With the default [max_retries = 2], a first attempt that times
    out and a second one that succeeds: the function returns the
    capture after two attempts on one session, and [driver.quit()] is
    never called. *)
Theorem teardown_skipped_after_retry :
  let run := search_and_save_page Sample.slow_start "Adele" 2 empty_world in
  (exists files, fst run = Ret (Some files))
  /\ sessions (snd run) = 1%nat
  /\ attempts (snd run) = 2%nat
  /\ teardowns (snd run) = 0%nat.
Proof.
  vm_compute. repeat split. eexists. reflexivity.
Qed.

(** With [max_retries = 0] a failed attempt ends the run without
    [driver.quit()]. *)
Lemma teardown_skipped_without_retries :
  let run := search_and_save_page Sample.never_loads "Adele" 0 empty_world in
  fst run = Ret None
  /\ sessions (snd run) = 1%nat
  /\ teardowns (snd run) = 0%nat.
Proof. vm_compute. repeat split. Qed.

(** With [max_retries = 2] and three failing attempts, [driver.quit()]
    is called when the second attempt is left, and the third attempt
    navigates with the session already closed. *)
Lemma teardown_before_last_attempt :
  trace (snd (search_and_save_page Sample.never_loads "Adele" 2 empty_world))
  = [ Chrome chrome_arguments;
      Get "https://www.ticketmaster.com"; UntilReady 30; Sleep 2;
      Get "https://www.ticketmaster.com"; UntilReady 30; Sleep 2;
      DriverQuit;
      Get "https://www.ticketmaster.com"; UntilReady 30 ].
Proof. vm_compute. reflexivity. Qed.

(** ** Locating the search input *)

Section SearchInput.

Variable env : Env.

Local Abbreviation clickable s :=
  (Until 20 (element_to_be_clickable By_CSS_SELECTOR s)).

(** A selector whose wait raises is skipped, [search_input] unchanged. *)
Lemma find_search_input_skips s rest si w e :
  env (trace w) (clickable s) = Raise e ->
  find_search_input env (s :: rest) si w
  = find_search_input env rest si (record_request (clickable s) w).
Proof.
  intros H. cbn [find_search_input].
  cbv [bind try_search_selector try_except call ret anything].
  rewrite H. reflexivity.
Qed.

(** The loop is left at the first selector whose element is found and
    reported as displayed. *)
Lemma find_search_input_breaks s rest si w el :
  env (trace w) (clickable s) = Ret el ->
  env (trace w ++ [clickable s])%list (IsDisplayed el) = Ret true ->
  find_search_input env (s :: rest) si w
  = (Ret (Some el),
     record_request (IsDisplayed el) (record_request (clickable s) w)).
Proof.
  intros H1 H2. cbn [find_search_input].
  cbv [bind try_search_selector try_except call ret anything].
  rewrite H1. cbn [trace record_request]. rewrite H2. reflexivity.
Qed.

(** An element that is found but not reported as displayed stays in
    [search_input] while the loop goes on. *)
Lemma find_search_input_keeps s rest si w el :
  env (trace w) (clickable s) = Ret el ->
  env (trace w ++ [clickable s])%list (IsDisplayed el) <> Ret true ->
  find_search_input env (s :: rest) si w
  = find_search_input env rest (Some el)
      (record_request (IsDisplayed el) (record_request (clickable s) w)).
Proof.
  intros H1 H2. cbn [find_search_input].
  cbv [bind try_search_selector try_except call ret anything].
  rewrite H1. cbn [trace record_request].
  destruct (env (trace w ++ [clickable s])%list (IsDisplayed el)) as [[|]|e];
    [exfalso; apply H2; reflexivity | reflexivity | reflexivity].
Qed.

(** The loop itself never raises, and it never forgets an element. *)
Lemma find_search_input_returns selectors :
  forall si w, exists r w',
    find_search_input env selectors si w = (Ret r, w')
    /\ (si <> None -> r <> None).
Proof.
  induction selectors as [|s rest IH]; intros si w.
  - exists si, w. split; [reflexivity | auto].
  - destruct (env (trace w) (clickable s)) as [el|e] eqn:H1.
    + destruct (env (trace w ++ [clickable s])%list (IsDisplayed el)) as [[|]|e] eqn:H2.
      * rewrite (find_search_input_breaks s rest si w el H1 H2).
        eexists _, _. split; [reflexivity | discriminate].
      * rewrite (find_search_input_keeps s rest si w el H1) by congruence.
        destruct (IH (Some el) (record_request (IsDisplayed el)
                                  (record_request (clickable s) w)))
          as (r & w' & Hr & Hsome).
        exists r, w'. split; [exact Hr|]. intros _. apply Hsome. discriminate.
      * rewrite (find_search_input_keeps s rest si w el H1) by congruence.
        destruct (IH (Some el) (record_request (IsDisplayed el)
                                  (record_request (clickable s) w)))
          as (r & w' & Hr & Hsome).
        exists r, w'. split; [exact Hr|]. intros _. apply Hsome. discriminate.
    + rewrite (find_search_input_skips s rest si w e H1). apply IH.
Qed.

(** When no wait returns an element, the step raises
    [NoSuchElementException]. *)
Lemma locate_search_input_nothing_found selectors :
  (forall h s, In s selectors -> exists e, env h (clickable s) = Raise e) ->
  forall w, exists w',
    locate_search_input env selectors w
    = (Raise (mk_exn NoSuchElementException "Could not find search input"), w').
Proof.
  intros Hnone w.
  assert (Hfind : forall w0, exists w', find_search_input env selectors None w0
                                        = (Ret None, w')).
  { clear w. induction selectors as [|s rest IH]; intros w0.
    - exists w0. reflexivity.
    - destruct (Hnone (trace w0) s (or_introl eq_refl)) as (e & He).
      rewrite (find_search_input_skips s rest None w0 e He).
      apply IH. intros h s' Hin. apply Hnone. right. exact Hin. }
  destruct (Hfind w) as (w' & Hw').
  exists w'. unfold locate_search_input, bind. rewrite Hw'. reflexivity.
Qed.

(** The step raises nothing but [NoSuchElementException]. *)
Lemma locate_search_input_raises selectors w e w' :
  locate_search_input env selectors w = (Raise e, w') ->
  e = mk_exn NoSuchElementException "Could not find search input".
Proof.
  unfold locate_search_input, bind.
  destruct (find_search_input_returns selectors None w) as (r & w1 & Hr & _).
  rewrite Hr. destruct r; unfold ret, raise; congruence.
Qed.

(** An element that was found but never displayed is what the step
    returns when every later wait raises. *)
Lemma locate_search_input_hidden s rest w el :
  env (trace w) (clickable s) = Ret el ->
  env (trace w ++ [clickable s])%list (IsDisplayed el) <> Ret true ->
  (forall h s', In s' rest -> exists e, env h (clickable s') = Raise e) ->
  exists w', locate_search_input env (s :: rest) w = (Ret el, w').
Proof.
  intros H1 H2 Hnone.
  unfold locate_search_input, bind.
  rewrite (find_search_input_keeps s rest None w el H1 H2).
  generalize (record_request (IsDisplayed el) (record_request (clickable s) w)).
  induction rest as [|s' rest IH]; intros w0.
  - exists w0. reflexivity.
  - destruct (Hnone (trace w0) s' (or_introl eq_refl)) as (e & He).
    rewrite (find_search_input_skips s' rest (Some el) w0 e He).
    apply IH. intros h s'' Hin. apply Hnone. right. exact Hin.
Qed.

End SearchInput.

(** C3.  In a browser where the first search selector finds an element
    that [is_displayed()] then reports hidden, and no other selector
    finds anything, no selector yields a visible element; yet the step
    raises nothing: it returns the hidden element and the query is typed
    into it. *)
Theorem hidden_search_input_accepted :
  (forall h el, Sample.hidden_search_box h (IsDisplayed el) = Ret false)
  /\ fst (locate_search_input Sample.hidden_search_box search_selectors empty_world)
     = Ret 7%nat
  /\ fst (submit_search Sample.hidden_search_box "Adele" empty_world) = Ret tt.
Proof.
  split; [intros h el; reflexivity|]. split; vm_compute; reflexivity.
Qed.

(** ** Page persistence *)

Section Persistence.

Variable env : Env.

(** What [write_files] has done when it completes: the answers it got
    and the requests it made, in order. *)
Lemma write_files_done q shot w p sp w1 :
  write_files env q shot w = (Ret (p, sp), w1) ->
  exists cwd now src,
    let outputs_dir := PyStr.path_join cwd "outputs" in
    let base := base_filename q (strftime_Ymd_HMS now) in
    let png := PyStr.path_join outputs_dir (base ++ ".png") in
    env (trace w) Getcwd = Ret cwd
    /\ env (trace w ++ [Getcwd; Makedirs outputs_dir true])%list Now = Ret now
    /\ env (trace w ++ [Getcwd; Makedirs outputs_dir true; Now])%list PageSource
       = Ret src
    /\ p = PyStr.path_join outputs_dir (base ++ ".html")
    /\ sp = (if shot then Some png else None)
    /\ trace w1
       = (trace w
          ++ [Getcwd; Makedirs outputs_dir true; Now; PageSource;
              FileOpen p "w" "utf-8"; FileWrite p doctype_line;
              FileWrite p src; FileClose p]
          ++ (if shot then [SaveScreenshot png] else []))%list.
Proof.
  unfold write_files, with_open, try_finally.
  cbv [bind call logging ret].
  cbn [trace record_request record_log].
  repeat rewrite <- app_assoc. cbn [app].
  destruct (env (trace w) Getcwd) as [cwd|] eqn:Hcwd; [|discriminate].
  destruct (env _ (Makedirs _ _)) as [[]|]; [|discriminate].
  destruct (env _ Now) as [now|] eqn:Hnow; [|discriminate].
  destruct (env _ PageSource) as [src|] eqn:Hsrc; [|discriminate].
  destruct (env _ (FileOpen _ _ _)) as [[]|]; [|discriminate].
  destruct (env _ (FileWrite _ doctype_line)) as [[]|].
  2:{ destruct (env _ (FileClose _)); discriminate. }
  destruct (env _ (FileWrite _ src)) as [[]|].
  2:{ destruct (env _ (FileClose _)); discriminate. }
  destruct (env _ (FileClose _)) as [[]|]; [|discriminate].
  destruct shot.
  - destruct (env _ (SaveScreenshot _)) as [b|]; [|discriminate].
    intros H; inversion H; subst; clear H.
    exists cwd, now, src. cbn [trace record_request record_log].
    repeat rewrite <- app_assoc in *. cbn [app] in *.
    repeat split; first [assumption | reflexivity].
  - intros H; inversion H; subst; clear H.
    exists cwd, now, src. cbn [trace record_request record_log].
    repeat rewrite <- app_assoc in *. cbn [app] in *.
    repeat split; first [assumption | reflexivity].
Qed.

(** The three ways the check of lines 58-73 ends without raising. *)
Lemma verify_saved_created p sp w n :
  env (trace w) (Exists p) = Ret true ->
  env (trace w ++ [Exists p])%list (Getsize p) = Ret n ->
  0 < n ->
  verify_saved env p sp w
  = (Ret (Some (mk_capture p sp)),
     record_log INFO ("Full path: " ++ p)
       (record_log INFO ("HTML file saved successfully! Size: "
                         ++ PyStr.fmt_kb n ++ " KB")
          (record_request (Getsize p) (record_request (Exists p) w)))).
Proof.
  intros He Hs Hn. unfold verify_saved, os_path_exists.
  cbv [bind call logging ret]. rewrite He. cbn [trace record_request].
  rewrite Hs. apply Z.ltb_lt in Hn. rewrite Hn. reflexivity.
Qed.

Lemma verify_saved_empty p sp w n :
  env (trace w) (Exists p) = Ret true ->
  env (trace w ++ [Exists p])%list (Getsize p) = Ret n ->
  n <= 0 ->
  verify_saved env p sp w
  = (Ret None,
     record_log WARNING "HTML file was created but is empty"
       (record_request (Getsize p) (record_request (Exists p) w))).
Proof.
  intros He Hs Hn. unfold verify_saved, os_path_exists.
  cbv [bind call logging ret]. rewrite He. cbn [trace record_request].
  rewrite Hs. replace (0 <? n) with false by (symmetry; apply Z.ltb_ge; lia).
  reflexivity.
Qed.

Lemma verify_saved_missing p sp w :
  env (trace w) (Exists p) <> Ret true ->
  verify_saved env p sp w
  = (Ret None,
     record_log ERROR "HTML file was not created" (record_request (Exists p) w)).
Proof.
  intros He. unfold verify_saved, os_path_exists.
  cbv [bind call logging ret].
  destruct (env (trace w) (Exists p)) as [[|]|e];
    [exfalso; apply He; reflexivity | reflexivity | reflexivity].
Qed.

(** A capture comes out of the check only in the first way. *)
Lemma verify_saved_some p sp w files w' :
  verify_saved env p sp w = (Ret (Some files), w') ->
  files = mk_capture p sp
  /\ env (trace w) (Exists p) = Ret true
  /\ exists n, env (trace w ++ [Exists p])%list (Getsize p) = Ret n /\ 0 < n.
Proof.
  destruct (env (trace w) (Exists p)) as [[|]|e] eqn:He.
  - destruct (env (trace w ++ [Exists p])%list (Getsize p)) as [n|e] eqn:Hs.
    + destruct (Z.ltb_spec 0 n) as [Hn|Hn].
      * rewrite (verify_saved_created p sp w n He Hs Hn).
        intros H; inversion H; subst. repeat split. exists n. split; [reflexivity|exact Hn].
      * rewrite (verify_saved_empty p sp w n He Hs Hn). discriminate.
    + unfold verify_saved, os_path_exists. cbv [bind call logging ret].
      rewrite He. cbn [trace record_request]. rewrite Hs. discriminate.
  - rewrite verify_saved_missing by (rewrite He; discriminate). discriminate.
  - rewrite verify_saved_missing by (rewrite He; discriminate). discriminate.
Qed.



(** A capture out of [save_webpage] comes from a completed
    [write_files] followed by the check. *)
Lemma save_webpage_some q shot w files w' :
  save_webpage env q shot w = (Ret (Some files), w') ->
  exists w1,
    write_files env q shot w = (Ret (html_path files, screenshot_path files), w1)
    /\ verify_saved env (html_path files) (screenshot_path files) w1
       = (Ret (Some files), w').
Proof.
  unfold save_webpage, try_except, save_webpage_body, bind.
  destruct (write_files env q shot w) as [[[p sp]|e] w1] eqn:Hw.
  - cbn [fst snd].
    destruct (verify_saved env p sp w1) as [[v|e] w2] eqn:Hv.
    + intros H; inversion H; subst.
      destruct (verify_saved_some p sp w1 files w' Hv) as (Hf & _). subst files.
      exists w1. split; [reflexivity | exact Hv].
    + destruct (is_Exception e); [|discriminate].
      unfold bind, logging, ret. discriminate.
  - destruct (is_Exception e); [|discriminate].
    unfold bind, logging, ret. discriminate.
Qed.

(** Nothing that derives from [Exception] leaves [save_webpage]. *)
Lemma save_webpage_raises q shot w e w' :
  save_webpage env q shot w = (Raise e, w') -> is_Exception e = false.
Proof.
  unfold save_webpage, try_except.
  destruct (save_webpage_body env q shot w) as [[v|e0] w1].
  - discriminate.
  - destruct (is_Exception e0) eqn:He0.
    + unfold bind, logging, ret. discriminate.
    + intros H; inversion H; subst. exact He0.
Qed.

(** Lines 187-194 raise nothing. *)
Lemma report_saved_returns saved w :
  exists v w', report_saved env saved w = (Ret v, w').
Proof.
  unfold report_saved. destruct saved as [files|]; [|eexists _, _; reflexivity].
  cbv [bind os_path_exists logging ret].
  destruct (match env (trace w) (Exists (html_path files)) with
            | Ret b => b | Raise _ => false end);
    [|eexists _, _; reflexivity].
  destruct (screenshot_path files) as [sp|]; [destruct (PyStr.truthy sp)|];
    eexists _, _; reflexivity.
Qed.

(** Nothing that derives from [Exception] leaves the persistence step
    of an attempt. *)
Lemma persist_page_raises q w e w' :
  persist_page env q w = (Raise e, w') -> is_Exception e = false.
Proof.
  unfold persist_page. unfold bind at 1. unfold logging at 1. unfold bind.
  destruct (save_webpage env q true _) as [[saved|e0] w1] eqn:Hs.
  - destruct (report_saved_returns saved w1) as (v & w2 & Hr). rewrite Hr.
    discriminate.
  - intros H; inversion H; subst. exact (save_webpage_raises _ _ _ _ _ Hs).
Qed.

End Persistence.







(** C8.  For a non-empty query, when [save_webpage] returns a capture:
    the capture names [<cwd>/outputs/ticketmaster_<query with spaces as
    underscores>_<YYYYmmdd_HHMMSS>.html]; the requests of the step are
    the ones listed, so that this is the one file opened, for writing
    as UTF-8; and its text is the doctype line followed by the page
    source the driver answered with. *)
Theorem html_snapshot_written
    (env : Env) (q : string) (shot : bool) (w : world)
    (files : capture) (w' : world) :
  q <> "" ->
  save_webpage env q shot w = (Ret (Some files), w') ->
  exists cwd now src evs,
    let outputs_dir := PyStr.path_join cwd "outputs" in
    let stem := "ticketmaster_" ++ PyStr.replace " " "_" q ++ "_"
                ++ strftime_Ymd_HMS now in
    let p := PyStr.path_join outputs_dir (stem ++ ".html") in
    let png := PyStr.path_join outputs_dir (stem ++ ".png") in
    env (trace w) Getcwd = Ret cwd
    /\ env (trace w ++ [Getcwd; Makedirs outputs_dir true])%list Now = Ret now
    /\ env (trace w ++ [Getcwd; Makedirs outputs_dir true; Now])%list PageSource
       = Ret src
    /\ html_path files = p
    /\ trace w' = (trace w ++ evs)%list
    /\ evs = ([Getcwd; Makedirs outputs_dir true; Now; PageSource;
               FileOpen p "w" "utf-8"; FileWrite p doctype_line;
               FileWrite p src; FileClose p]
              ++ (if shot then [SaveScreenshot png] else [])
              ++ [Exists p; Getsize p])%list
    /\ written_files evs [] = [(p, doctype_line ++ src)].
Proof.
  intros _ H.
  destruct (save_webpage_some env q shot w files w' H) as (w1 & Hw & Hv).
  destruct (write_files_done env q shot w _ _ w1 Hw)
    as (cwd & now & src & Hcwd & Hnow & Hsrc & Hp & Hsp & Htr).
  destruct (verify_saved_some env _ _ w1 files w' Hv) as (_ & He & n & Hs & Hn).
  rewrite (verify_saved_created env _ _ w1 n He Hs Hn) in Hv.
  inversion Hv as [[Hfiles Hw']]. clear Hv.
  exists cwd, now, src. eexists. cbv zeta.
  split; [exact Hcwd|]. split; [exact Hnow|]. split; [exact Hsrc|].
  split; [exact Hp|].
  split; [|split; [reflexivity|]].
  - cbn [trace record_log record_request]. rewrite Htr, Hp.
    repeat rewrite <- app_assoc. reflexivity.
  - destruct shot;
      do 3 (cbn [app written_files existsb append_to fst map];
            rewrite ?String.eqb_refl);
      reflexivity.
Qed.

Lemma html_snapshot_written_witness :
  exists cwd now src evs,
    let outputs_dir := PyStr.path_join cwd "outputs" in
    let stem := "ticketmaster_" ++ PyStr.replace " " "_" "Taylor Swift" ++ "_"
                ++ strftime_Ymd_HMS now in
    let p := PyStr.path_join outputs_dir (stem ++ ".html") in
    let png := PyStr.path_join outputs_dir (stem ++ ".png") in
    Sample.cooperative [] Getcwd = Ret cwd
    /\ Sample.cooperative [Getcwd; Makedirs outputs_dir true] Now = Ret now
    /\ Sample.cooperative [Getcwd; Makedirs outputs_dir true; Now] PageSource
       = Ret src
    /\ "/srv/scraper/outputs/ticketmaster_Taylor_Swift_20240309_070542.html" = p
    /\ trace (snd (save_webpage Sample.cooperative "Taylor Swift" true empty_world))
       = ([] ++ evs)%list
    /\ evs = ([Getcwd; Makedirs outputs_dir true; Now; PageSource;
               FileOpen p "w" "utf-8"; FileWrite p doctype_line;
               FileWrite p src; FileClose p]
              ++ [SaveScreenshot png]
              ++ [Exists p; Getsize p])%list
    /\ written_files evs [] = [(p, doctype_line ++ src)].
Proof.
  apply (html_snapshot_written Sample.cooperative "Taylor Swift" true empty_world
           (mk_capture
              "/srv/scraper/outputs/ticketmaster_Taylor_Swift_20240309_070542.html"
              (Some "/srv/scraper/outputs/ticketmaster_Taylor_Swift_20240309_070542.png"))
           (snd (save_webpage Sample.cooperative "Taylor Swift" true empty_world))).
  - discriminate.
  - vm_compute. reflexivity.
Defined.

(** ** Confirming the results *)

Section Results.

Variable env : Env.

Local Abbreviation present s :=
  (Until 20 (presence_of_element_located By_CSS_SELECTOR s)).

(** When no result selector matches, [results_found] stays [False]
    and nothing is logged by the loop. *)
Lemma find_results_none selectors :
  (forall h s, In s selectors -> exists e, env h (present s) = Raise e) ->
  forall w, exists w',
    find_results env selectors w = (Ret false, w') /\ log w' = log w.
Proof.
  induction selectors as [|s rest IH]; intros Hnone w.
  - exists w. split; reflexivity.
  - destruct (Hnone (trace w) s (or_introl eq_refl)) as (e & He).
    destruct (IH (fun h s' Hin => Hnone h s' (or_intror Hin))
                 (record_request (present s) w)) as (w' & Hw' & Hlog).
    exists w'. split; [|exact Hlog].
    cbn [find_results]. cbv [bind try_except call logging ret anything].
    rewrite He. exact Hw'.
Qed.

End Results.

(** C6.  In an attempt that has submitted the query, when every
    result-container selector fails to match within its wait:
    [confirm_results] ends normally with the warning as the last log
    record; and when the page-settling step that follows completes, the
    attempt goes on with the persistence step from there, and the round
    of the retry loop does not end in a retry. *)
Theorem missing_results_not_fatal (env : Env) (q : string) (w w1 : world) :
  submit_search env q w = (Ret tt, w1) ->
  (forall h s, In s result_selectors ->
     exists e, env h (Until 20 (presence_of_element_located By_CSS_SELECTOR s))
               = Raise e) ->
  exists w2,
    confirm_results env result_selectors w1 = (Ret tt, w2)
    /\ last (log w2) (INFO, "")
       = (WARNING, "Could not confirm results - will try to save anyway")
    /\ forall w3,
         settle_results_page env w2 = (Ret tt, w3) ->
         attempt env q w = persist_page env q w3
         /\ forall max_retries rc rc',
              fst (round env q max_retries rc w) <> Again rc'.
Proof.
  intros Hsubmit Hnone.
  destruct (find_results_none env result_selectors Hnone w1) as (w2 & Hfind & Hlog).
  exists (record_log WARNING "Could not confirm results - will try to save anyway" w2).
  assert (Hconfirm :
            confirm_results env result_selectors w1
            = (Ret tt, record_log WARNING
                         "Could not confirm results - will try to save anyway" w2)).
  { unfold confirm_results, bind. rewrite Hfind. reflexivity. }
  split; [exact Hconfirm|]. split.
  { unfold record_log; cbn [log]. apply last_last. }
  intros w3 Hsettle.
  assert (Hattempt : attempt env q w = persist_page env q w3).
  { unfold attempt, reach_results. unfold bind at 1 2. rewrite Hsubmit.
    unfold bind at 1. rewrite Hconfirm. rewrite Hsettle. reflexivity. }
  split; [exact Hattempt|].
  intros max_retries rc rc'. unfold round, try_attempt. rewrite Hattempt.
  destruct (persist_page env q w3) as [[v|e] w4] eqn:Hp; cbn [fst].
  - discriminate.
  - rewrite (persist_page_raises env q w3 e w4 Hp). cbn [fst]. discriminate.
Qed.

Lemma missing_results_not_fatal_witness :
  exists w2,
    confirm_results Sample.no_result_cards result_selectors
      (snd (submit_search Sample.no_result_cards "Adele" empty_world))
    = (Ret tt, w2)
    /\ last (log w2) (INFO, "")
       = (WARNING, "Could not confirm results - will try to save anyway")
    /\ forall w3,
         settle_results_page Sample.no_result_cards w2 = (Ret tt, w3) ->
         attempt Sample.no_result_cards "Adele" empty_world
         = persist_page Sample.no_result_cards "Adele" w3
         /\ forall max_retries rc rc',
              fst (round Sample.no_result_cards "Adele" max_retries rc empty_world)
              <> Again rc'.
Proof.
  apply (missing_results_not_fatal Sample.no_result_cards "Adele" empty_world
           (snd (submit_search Sample.no_result_cards "Adele" empty_world))).
  - vm_compute. reflexivity.
  - intros h s _. eexists. reflexivity.
Defined.

(** ** A failed persistence step *)



(** ** The main block *)

Section Main.

Variable env : Env.
Variable sys_executable script_file : string.
Variable signal_repr : Z -> option string.

(** A round that falls back to the loop test has counted one more
    attempt, still within the limit. *)
Lemma round_again q max_retries rc w rc' w' :
  round env q max_retries rc w = (Again rc', w') ->
  rc' = rc + 1 /\ rc' <= max_retries.
Proof.
  unfold round, try_attempt.
  destruct (attempt env q w) as [[v|e] w1]; [discriminate|].
  destruct (is_Exception e); [|discriminate].
  destruct (rc + 1 <=? max_retries) eqn:E; [|discriminate].
  destruct (time_sleep env 2 _) as [[[]|e'] w4]; [|discriminate].
  intros H; inversion H; subst. split; [reflexivity | apply Z.leb_le, E].
Qed.

(** The retry loop starts no process. *)
Lemma retry_loop_launches_nothing q max_retries n :
  forall rc w,
    (Z.to_nat (max_retries + 1 - rc) <= n)%nat ->
    launches (snd (retry_loop env q max_retries rc w)) = launches w.
Proof.
  induction n as [|n IH]; intros rc w Hn; rewrite retry_loop_step.
  - replace (rc <=? max_retries) with false by (symmetry; apply Z.leb_gt; lia).
    reflexivity.
  - destruct (rc <=? max_retries) eqn:Hrc; [|reflexivity].
    pose proof (round_count env is_Run 0 q max_retries rc w) as Hcount.
    destruct (round env q max_retries rc w) as [[v|rc'|e] w'] eqn:Hround;
      cbn [snd] in *.
    + unfold launches. rewrite Hcount; [lia | | reflexivity | reflexivity].
      intros w0. rewrite (attempt_launches_nothing env q w0). lia.
    + destruct (round_again q max_retries rc w rc' w' Hround) as (-> & Hle).
      rewrite IH by lia.
      unfold launches. rewrite Hcount; [lia | | reflexivity | reflexivity].
      intros w0. rewrite (attempt_launches_nothing env q w0). lia.
    + unfold launches. rewrite Hcount; [lia | | reflexivity | reflexivity].
      intros w0. rewrite (attempt_launches_nothing env q w0). lia.
Qed.

(** [search_and_save_page] starts no process. *)
Lemma search_launches_nothing q max_retries w :
  launches (snd (search_and_save_page env q max_retries w)) = launches w.
Proof.
  unfold search_and_save_page, bind, logging, call.
  destruct (env _ (Chrome _)) as [[]|e]; cbn [snd].
  - rewrite (retry_loop_launches_nothing q max_retries
               (Z.to_nat (max_retries + 1 - 0))) by apply Nat.le_refl.
    unfold launches. rewrite count_record_request, trace_record_log.
    cbn [is_Run]. lia.
  - unfold launches. rewrite count_record_request, trace_record_log.
    cbn [is_Run]. lia.
Qed.

(** [execute_crawler] makes one request, the process start, and
    returns whatever comes of it. *)
Lemma execute_crawler_runs w :
  let crawler := [sys_executable;
                  PyStr.path_join (PyStr.dirname script_file) "crawler.py"] in
  exists w' report,
    execute_crawler env sys_executable script_file signal_repr w
    = (match env (trace w) (Run crawler) with
       | Raise e => if is_Exception e then Ret tt else Raise e
       | Ret _ => Ret tt
       end, w')
    /\ trace w' = (trace w ++ [Run crawler])%list
    /\ log w' = (log w ++ (INFO, "Starting crawler process...") :: report)%list
    /\ match env (trace w) (Run crawler) with
       | Ret n =>
           if n =? 0
           then report = [(INFO, "Crawler process completed successfully")]
           else exists msg, report = [(ERROR, msg)]
       | Raise e =>
           if is_Exception e then exists msg, report = [(ERROR, msg)]
           else report = []
       end.
Proof.
  cbv zeta. unfold execute_crawler, try_except2, subprocess_run_check.
  cbv [bind logging call ret raise]. cbn [trace record_log record_request].
  assert (Hclass : forall e, is_CalledProcessError e = true -> is_Exception e = true)
    by (intros [[] ?]; cbn; congruence).
  destruct (env (trace w) (Run _)) as [n|e].
  - destruct (n =? 0); cbn [is_CalledProcessError exn_cls];
      eexists _, _; (split; [reflexivity|]);
      cbn [trace log record_log record_request];
      rewrite <- ?app_assoc; cbn [app];
      (split; [reflexivity|]); (split; [reflexivity|]);
      first [reflexivity | eexists; reflexivity].
  - destruct (is_CalledProcessError e) eqn:Hc;
      [rewrite (Hclass e Hc) | destruct (is_Exception e)];
      eexists _, _; (split; [reflexivity|]);
      cbn [trace log record_log record_request];
      rewrite <- ?app_assoc; cbn [app];
      (split; [reflexivity|]); (split; [reflexivity|]);
      first [reflexivity | eexists; reflexivity].
Qed.

(** The main block ends normally whatever happens inside. *)
Lemma main_returns w : exists w', main env sys_executable script_file signal_repr w = (Ret tt, w').
Proof.
  unfold main, try_except2.
  match goal with |- context [match ?c w with _ => _ end] =>
    destruct (c w) as [[[]|e] w1] end.
  - eexists; reflexivity.
  - destruct (is_KeyboardInterrupt e) eqn:Hk; [eexists; reflexivity|].
    assert (He : is_Exception e = true)
      by (destruct e as [[] ?]; cbn in *; congruence).
    rewrite He. eexists; reflexivity.
Qed.

End Main.

Lemma not_Exception_is_interrupt e :
  is_Exception e = false -> is_KeyboardInterrupt e = true.
Proof. destruct e as [[] ?]; cbn; congruence. Qed.

Lemma last_app_two {A} (l : list A) (a b d : A) : last (l ++ [a; b])%list d = b.
Proof. change [a; b] with ([a] ++ [b])%list. rewrite app_assoc. apply last_last. Qed.

Lemma truthy_nonempty s : s <> "" -> PyStr.truthy s = true.
Proof. destruct s; [congruence | reflexivity]. Qed.

(** C7.  When the line read from standard input is empty once stripped
    (in particular when it is empty), the main block logs the error and
    ends: reading the line is its only request, so no browser session is
    started, no file is opened and no process is launched. *)
Theorem empty_query_short_circuits
    (env : Env) (sys_executable script_file : string)
    (signal_repr : Z -> option string) (w : world) (line : string) :
  env (trace w) (Input input_prompt) = Ret line ->
  PyStr.strip line = "" ->
  exists w',
    main env sys_executable script_file signal_repr w = (Ret tt, w')
    /\ trace w' = (trace w ++ [Input input_prompt])%list
    /\ log w' = (log w ++ [(ERROR, "Search query cannot be empty")])%list
    /\ sessions w' = sessions w
    /\ count is_FileOpen (trace w') = count is_FileOpen (trace w)
    /\ launches w' = launches w.
Proof.
  intros Hline Hempty.
  exists (record_log ERROR "Search query cannot be empty"
            (record_request (Input input_prompt) w)).
  split.
  - unfold main, try_except2, bind, call. rewrite Hline, Hempty. reflexivity.
  - unfold sessions, launches. cbn [trace log record_log record_request].
    rewrite !count_app. cbn. repeat split; lia.
Qed.

Lemma empty_query_short_circuits_witness :
  exists w',
    main Sample.empty_line Sample.python Sample.this_file Sample.signals empty_world = (Ret tt, w')
    /\ trace w' = ([] ++ [Input input_prompt])%list
    /\ log w' = ([] ++ [(ERROR, "Search query cannot be empty")])%list
    /\ sessions w' = sessions empty_world
    /\ count is_FileOpen (trace w') = count is_FileOpen (trace empty_world)
    /\ launches w' = launches empty_world.
Proof.
  apply (empty_query_short_circuits Sample.empty_line Sample.python
           Sample.this_file Sample.signals empty_world "");
    reflexivity.
Defined.

(** C9.  With a non-empty query read from standard input, whatever
    [search_and_save_page] comes to, the main block ends normally.
    After a capture, its one further request starts the process
    [[sys.executable, <directory of the script>/crawler.py]], the only
    process of the run, and a non-zero exit status or an exception of
    that start leaves an error as the last log record.  After [None] or
    an exception there is no further request and no process. *)
Theorem downstream_handoff
    (env : Env) (sys_executable script_file : string)
    (signal_repr : Z -> option string)
    (w : world) (line : string) (o : outcome (option capture)) (w1 : world) :
  env (trace w) (Input input_prompt) = Ret line ->
  PyStr.strip line <> "" ->
  search_and_save_page env (PyStr.strip line) 2
    (record_request (Input input_prompt) w) = (o, w1) ->
  let crawler := [sys_executable;
                  PyStr.path_join (PyStr.dirname script_file) "crawler.py"] in
  exists w2,
    main env sys_executable script_file signal_repr w = (Ret tt, w2)
    /\ match o with
       | Ret (Some _) =>
           trace w2 = (trace w1 ++ [Run crawler])%list
           /\ launches w2 = (launches w + 1)%nat
           /\ (forall n, env (trace w1) (Run crawler) = Ret n -> n <> 0 ->
                 exists msg, last (log w2) (INFO, "") = (ERROR, msg))
           /\ (forall e, env (trace w1) (Run crawler) = Raise e ->
                 is_Exception e = true ->
                 exists msg, last (log w2) (INFO, "") = (ERROR, msg))
       | _ => trace w2 = trace w1 /\ launches w2 = launches w
       end.
Proof.
  intros Hline Hquery Hsearch. cbv zeta.
  pose proof (search_launches_nothing env (PyStr.strip line) 2
                (record_request (Input input_prompt) w)) as Hquiet.
  rewrite Hsearch in Hquiet. cbn [snd] in Hquiet.
  assert (Hbefore : launches w1 = launches w).
  { rewrite Hquiet. unfold launches. rewrite count_record_request. cbn. lia. }
  unfold main, try_except2. unfold bind at 1. unfold call at 1.
  rewrite Hline, (truthy_nonempty _ Hquery). unfold bind at 1. rewrite Hsearch.
  destruct o as [[files|]|e].
  - destruct (execute_crawler_runs env sys_executable script_file signal_repr w1)
      as (w' & report & Hrun & Htrace & Hlog & Hreport).
    rewrite Hrun.
    destruct (env (trace w1) (Run _)) as [n|e] eqn:Hanswer.
    + exists w'. split; [reflexivity|]. split; [exact Htrace|]. split.
      { unfold launches in *. rewrite Htrace, count_app, Hbefore. reflexivity. }
      split; [|discriminate].
      intros n' Hn' Hnz. inversion Hn'; subst n'.
      replace (n =? 0) with false in Hreport by (symmetry; apply Z.eqb_neq; exact Hnz).
      destruct Hreport as (msg & ->). exists msg. rewrite Hlog.
      apply last_app_two.
    + destruct (is_Exception e) eqn:He.
      * exists w'. split; [reflexivity|]. split; [exact Htrace|]. split.
        { unfold launches in *. rewrite Htrace, count_app, Hbefore. reflexivity. }
        split; [discriminate|].
        intros e' He' _. destruct Hreport as (msg & ->). exists msg. rewrite Hlog.
        apply last_app_two.
      * rewrite (not_Exception_is_interrupt e He).
        eexists. split; [reflexivity|]. cbn [trace record_log].
        split; [exact Htrace|]. split.
        { unfold launches in *. rewrite trace_record_log, Htrace, count_app, Hbefore.
          reflexivity. }
        split; [discriminate|].
        intros e' He' Hexc. inversion He'; subst e'. congruence.
  - eexists. split; [reflexivity|]. split; [reflexivity | exact Hbefore].
  - destruct (is_KeyboardInterrupt e) eqn:Hk.
    + eexists. split; [reflexivity|]. split; [reflexivity | exact Hbefore].
    + assert (He : is_Exception e = true)
        by (destruct e as [[] ?]; cbn in *; congruence).
      rewrite He. eexists. split; [reflexivity|].
      split; [reflexivity | exact Hbefore].
Qed.

Lemma downstream_handoff_witness :
  let env := Sample.crawler_fails in
  let crawler := [Sample.python; "/srv/scraper/crawler.py"] in
  exists w2,
    main env Sample.python Sample.this_file Sample.signals empty_world = (Ret tt, w2)
    /\ trace w2
       = (trace (snd (search_and_save_page env "Adele" 2
                        (record_request (Input input_prompt) empty_world)))
          ++ [Run crawler])%list
    /\ launches w2 = 1%nat
    /\ last (log w2) (INFO, "")
       = (ERROR,
          "Error executing crawler: Command '['/usr/bin/python3', '/srv/scraper/crawler.py']' returned non-zero exit status 1.").
Proof.
  destruct (downstream_handoff Sample.crawler_fails Sample.python Sample.this_file Sample.signals
              empty_world "Adele"
              (fst (search_and_save_page Sample.crawler_fails "Adele" 2
                      (record_request (Input input_prompt) empty_world)))
              (snd (search_and_save_page Sample.crawler_fails "Adele" 2
                      (record_request (Input input_prompt) empty_world))))
    as (w2 & Hmain & Hrest).
  - reflexivity.
  - discriminate.
  - vm_compute. reflexivity.
  - exists w2. split; [exact Hmain|].
    assert (Hw2 : w2 = snd (main Sample.crawler_fails Sample.python
                              Sample.this_file Sample.signals empty_world))
      by (rewrite Hmain; reflexivity).
    subst w2. vm_compute. repeat split.
Defined.

(** The scenario of a search input that is never found: three failed
    attempts with the default [max_retries = 2], no file opened, [None]
    from the search and no process launched; the error records are the
    three failed attempts, the giving up and the final report. *)
Example search_input_never_found :
  let run := main Sample.no_search_box Sample.python Sample.this_file Sample.signals
               empty_world in
  fst run = Ret tt
  /\ attempts (snd run) = 3%nat
  /\ count is_FileOpen (trace (snd run)) = 0%nat
  /\ launches (snd run) = 0%nat
  /\ List.length
       (filter (fun r => match fst r with ERROR => true | _ => false end)
          (log (snd run))) = 5%nat.
Proof. vm_compute. repeat split. Qed.

(** * Further properties of the script *)

(** ** What each part of an attempt asks for *)

Section Browsing.

Variable env : Env.
Variable p : request -> bool.
Hypothesis p_not_browsing : forall r, is_browsing r = true -> p r = false.

Local Ltac browse :=
  repeat first [ quiet_step
               | match goal with
                 | |- quiet _ (call _ ?r) =>
                     apply (quiet_call env p r); apply p_not_browsing; reflexivity
                 end
               | apply quiet_emit; apply p_not_browsing; reflexivity ].

Lemma browsing_load_site : quiet p (load_site env).
Proof. unfold load_site, wait_for_page_load, time_sleep. browse. Qed.

Lemma browsing_cookie_consent : quiet p (handle_cookie_consent env).
Proof. unfold handle_cookie_consent, time_sleep. browse. Qed.

Lemma browsing_find_search_input selectors si :
  quiet p (find_search_input env selectors si).
Proof.
  revert si. induction selectors as [|s rest IH]; intros si; cbn [find_search_input].
  - browse.
  - apply quiet_bind.
    + unfold try_search_selector. browse.
    + intros [[|] si']; [browse | apply IH].
Qed.

Lemma browsing_find_results selectors : quiet p (find_results env selectors).
Proof.
  induction selectors as [|s rest IH]; cbn [find_results].
  - browse.
  - apply quiet_bind; [browse|]. intros [|]; [browse | apply IH].
Qed.

Lemma browsing_submit_search q : quiet p (submit_search env q).
Proof.
  unfold submit_search.
  apply quiet_bind; [apply browsing_load_site | intros _].
  apply quiet_bind; [apply browsing_cookie_consent | intros _].
  apply quiet_bind.
  - unfold locate_search_input.
    apply quiet_bind; [apply browsing_find_search_input | intros [el|]; browse].
  - intros el. unfold perform_search. browse.
Qed.

Lemma browsing_reach_results q : quiet p (reach_results env q).
Proof.
  unfold reach_results.
  apply quiet_bind; [apply browsing_submit_search | intros _].
  apply quiet_bind.
  - unfold confirm_results.
    apply quiet_bind; [apply browsing_find_results | intros [|]; browse].
  - intros _. unfold settle_results_page, wait_for_page_load, time_sleep. browse.
Qed.

End Browsing.

Section Persisting.

Variable env : Env.
Variable p : request -> bool.
Hypothesis p_not_persisting : forall r, is_persisting r = true -> p r = false.

Local Ltac persist :=
  repeat first [ quiet_step
               | match goal with
                 | |- quiet _ (call _ ?r) =>
                     apply (quiet_call env p r); apply p_not_persisting; reflexivity
                 end
               | apply quiet_exists; apply p_not_persisting; reflexivity ].

Lemma persisting_save_webpage q shot : quiet p (save_webpage env q shot).
Proof.
  unfold save_webpage, save_webpage_body, write_files, verify_saved, with_open.
  persist.
Qed.

Lemma persisting_persist_page q : quiet p (persist_page env q).
Proof.
  unfold persist_page. apply quiet_bind; [persist | intros _].
  apply quiet_bind; [apply persisting_save_webpage|].
  intros [files|]; unfold report_saved; persist.
Qed.

End Persisting.

Section WholeSearch.

Variable env : Env.
Variable p : request -> bool.
Hypothesis p_not_browsing : forall r, is_browsing r = true -> p r = false.
Hypothesis p_not_persisting : forall r, is_persisting r = true -> p r = false.
Hypothesis p_not_quit : p DriverQuit = false.

Lemma outside_attempt q : quiet p (attempt env q).
Proof.
  unfold attempt. apply quiet_bind.
  - apply browsing_reach_results. exact p_not_browsing.
  - intros _. apply persisting_persist_page. exact p_not_persisting.
Qed.

Lemma round_fallback q max_retries rc w rc' w' :
  round env q max_retries rc w = (Again rc', w') -> rc' = rc + 1.
Proof.
  unfold round, try_attempt.
  destruct (attempt env q w) as [[v|e] w1]; [discriminate|].
  destruct (is_Exception e); [|discriminate].
  destruct (rc + 1 <=? max_retries); [|discriminate].
  destruct (time_sleep env 2 _) as [[[]|e'] w4]; [|discriminate].
  intros H; inversion H; reflexivity.
Qed.


End WholeSearch.


(** X18.  Up to the persistence step an attempt only drives the browser:
    whether it completes or raises, lines 104-181 make no request to
    the file system, start no session and no process, and do not quit
    the driver. *)
Theorem reach_results_only_browses (env : Env) (q : string) (w : world) :
  count not_browsing (trace (snd (reach_results env q w)))
  = count not_browsing (trace w).
Proof.
  apply browsing_reach_results.
  intros r H. unfold not_browsing. rewrite H. reflexivity.
Qed.

(** ** Bounds on a search *)

Lemma retry_loop_attempts_le (env : Env) (q : string) (max_retries : Z) (n : nat) :
  forall rc w,
    (Z.to_nat (max_retries + 1 - rc) <= n)%nat ->
    (attempts (snd (retry_loop env q max_retries rc w))
     <= attempts w + Z.to_nat (max_retries + 1 - rc))%nat.
Proof.
  induction n as [|n IH]; intros rc w Hn; rewrite retry_loop_step.
  - replace (rc <=? max_retries) with false by (symmetry; apply Z.leb_gt; lia).
    cbn [snd]. lia.
  - destruct (rc <=? max_retries) eqn:Hrc; [|cbn [snd]; lia].
    apply Z.leb_le in Hrc.
    pose proof (round_count env is_Get 1 q max_retries rc w
                  (attempt_navigates env q) eq_refl eq_refl) as Hround.
    destruct (round env q max_retries rc w) as [[v|rc'|e] w'] eqn:Hr;
      cbn [snd] in *; unfold attempts in *; try lia.
    apply round_fallback in Hr. subst rc'.
    specialize (IH (rc + 1) w'). lia.
Qed.

(** X2.  Whatever the browser does, [search_and_save_page] navigates at
    most [max_retries + 1] times (not at all for a negative
    [max_retries]). *)
Theorem attempts_bounded (env : Env) (q : string) (max_retries : Z) (w : world) :
  (attempts (snd (search_and_save_page env q max_retries w))
   <= attempts w + Z.to_nat (max_retries + 1))%nat.
Proof.
  unfold search_and_save_page, bind, logging, call.
  destruct (env _ (Chrome _)) as [[]|e]; cbn [snd].
  - pose proof (retry_loop_attempts_le env q max_retries
                  (Z.to_nat (max_retries + 1 - 0)) 0
                  (record_request (Chrome chrome_arguments)
                     (record_log INFO ("Starting search for: " ++ q) w))
                  (Nat.le_refl _)) as H.
    unfold attempts in *. rewrite count_record_request, trace_record_log in H.
    cbn [is_Get] in H. replace (max_retries + 1 - 0) with (max_retries + 1) in H by lia.
    lia.
  - unfold attempts. rewrite count_record_request, trace_record_log.
    cbn [is_Get]. lia.
Qed.

(** X3.  With a negative [max_retries] and a browser that starts, the
    loop body never runs: the function returns [None] after the one
    request that starts the session, which is neither used nor quit. *)
Theorem negative_max_retries_skips_the_loop
    (env : Env) (q : string) (max_retries : Z) (w : world) :
  max_retries < 0 ->
  env (trace w) (Chrome chrome_arguments) = Ret tt ->
  search_and_save_page env q max_retries w
  = (Ret None,
     mk_world (trace w ++ [Chrome chrome_arguments])
       (log w ++ [(INFO, "Starting search for: " ++ q)])).
Proof.
  intros Hneg Hstart.
  unfold search_and_save_page, bind, logging, call.
  rewrite trace_record_log, Hstart, retry_loop_step.
  replace (0 <=? max_retries) with false by (symmetry; apply Z.leb_gt; lia).
  reflexivity.
Qed.

Lemma negative_max_retries_skips_the_loop_witness :
  search_and_save_page Sample.cooperative "Adele" (-1) empty_world
  = (Ret None,
     mk_world ([] ++ [Chrome chrome_arguments])
       ([] ++ [(INFO, "Starting search for: " ++ "Adele")])).
Proof.
  apply (negative_max_retries_skips_the_loop Sample.cooperative "Adele" (-1)
           empty_world).
  - lia.
  - reflexivity.
Defined.

(** X4.  When Chrome cannot be started, [search_and_save_page] makes no
    attempt and lets the exception through; the main block logs it as
    an unexpected error and ends normally, with the browser start as
    its last request. *)
Theorem browser_start_failure_reported
    (env : Env) (sys_executable script_file : string)
    (signal_repr : Z -> option string)
    (w : world) (line : string) (e : exn) :
  env (trace w) (Input input_prompt) = Ret line ->
  PyStr.strip line <> "" ->
  env (trace w ++ [Input input_prompt])%list (Chrome chrome_arguments) = Raise e ->
  is_Exception e = true ->
  exists w',
    main env sys_executable script_file signal_repr w = (Ret tt, w')
    /\ trace w' = (trace w ++ [Input input_prompt; Chrome chrome_arguments])%list
    /\ log w'
       = (log w ++ [(INFO, ("Starting search for: " ++ PyStr.strip line)%string);
                    (ERROR, ("Unexpected error: " ++ str_exn e)%string)])%list.
Proof.
  intros Hline Hquery Hstart He.
  assert (Hk : is_KeyboardInterrupt e = false)
    by (destruct e as [[] ?]; cbn in *; congruence).
  eexists. split.
  - unfold main, try_except2. unfold bind at 1. unfold call at 1.
    rewrite Hline, (truthy_nonempty _ Hquery).
    unfold search_and_save_page. unfold bind at 1 2 3. unfold logging at 1.
    unfold call at 1. cbn [trace record_log record_request].
    rewrite Hstart, Hk, He. reflexivity.
  - cbn [trace log record_log record_request].
    rewrite <- !app_assoc. split; reflexivity.
Qed.

Lemma browser_start_failure_reported_witness :
  exists w',
    main Scenario.no_browser Sample.python Sample.this_file Sample.signals empty_world = (Ret tt, w')
    /\ trace w' = ([] ++ [Input input_prompt; Chrome chrome_arguments])%list
    /\ log w'
       = ([] ++ [(INFO, ("Starting search for: " ++ PyStr.strip "Adele")%string);
                 (ERROR, ("Unexpected error: "
                          ++ str_exn (mk_exn WebDriverException
                                        "chromedriver executable not found"))%string)])%list.
Proof.
  apply (browser_start_failure_reported Scenario.no_browser Sample.python
           Sample.this_file Sample.signals empty_world "Adele"
           (mk_exn WebDriverException "chromedriver executable not found"));
    first [reflexivity | discriminate].
Defined.

(** ** Teardown *)

Section TeardownOfAFailingSearch.

Variable env : Env.
Variable q : string.
Variable max_retries : Z.

Hypothesis every_attempt_fails :
  forall w, exists e w',
    attempt env q w = (Raise e, w') /\ is_Exception e = true.

Hypothesis pause_completes :
  forall w e w',
    attempt env q w = (Raise e, w') -> env (trace w') (Sleep 2) = Ret tt.

Lemma attempt_never_quits w :
  teardowns (snd (attempt env q w)) = teardowns w.
Proof.
  apply (outside_attempt env is_DriverQuit);
    intros [] H; try discriminate H; reflexivity.
Qed.

Lemma failing_round_teardowns rc w :
  teardowns (snd (round env q max_retries rc w))
  = (teardowns w
     + if ((rc + 1 =? max_retries) || (rc + 1 =? 0))%Z then 1 else 0)%nat.
Proof.
  pose proof (attempt_never_quits w) as Hq.
  destruct (every_attempt_fails w) as (e & w1 & Hatt & He).
  unfold round, try_attempt, time_sleep, call.
  rewrite Hatt in *. rewrite He. cbn [snd] in Hq.
  rewrite !trace_record_log, (pause_completes w e w1 Hatt).
  destruct (rc + 1 <=? max_retries); cbn [snd];
    rewrite finally_close_teardowns; unfold teardowns in *;
    rewrite ?count_record_request, ?trace_record_log; cbn [is_DriverQuit]; lia.
Qed.

Lemma failing_loop_teardowns n :
  forall rc w,
    0 <= rc ->
    Z.of_nat n = max_retries - rc ->
    teardowns (snd (retry_loop env q max_retries rc w))
    = (teardowns w + if (rc <? max_retries)%Z then 1 else 0)%nat.
Proof.
  induction n as [|n IH]; intros rc w Hrc Hn; rewrite retry_loop_step;
    pose proof (failing_round_teardowns rc w) as Ht;
    destruct (failing_round env q max_retries every_attempt_fails
                pause_completes rc w)
      as (w1 & Hround & _); rewrite Hround in *; cbn [snd] in Ht.
  - assert (rc = max_retries) by lia. subst rc.
    rewrite Z.leb_refl.
    replace (max_retries + 1 <=? max_retries) with false
      by (symmetry; apply Z.leb_gt; lia).
    cbn [snd]. rewrite Ht, Z.ltb_irrefl.
    replace (max_retries + 1 =? max_retries) with false
      by (symmetry; apply Z.eqb_neq; lia).
    replace (max_retries + 1 =? 0) with false
      by (symmetry; apply Z.eqb_neq; lia).
    reflexivity.
  - replace (rc <=? max_retries) with true by (symmetry; apply Z.leb_le; lia).
    replace (rc + 1 <=? max_retries) with true by (symmetry; apply Z.leb_le; lia).
    rewrite (IH (rc + 1) w1) by lia. rewrite Ht.
    replace (rc <? max_retries) with true by (symmetry; apply Z.ltb_lt; lia).
    replace (rc + 1 =? 0) with false by (symmetry; apply Z.eqb_neq; lia).
    rewrite orb_false_r.
    destruct (Z.eqb_spec (rc + 1) max_retries) as [Heq|Hne].
    + replace (rc + 1 <? max_retries) with false by (symmetry; apply Z.ltb_ge; lia).
      lia.
    + replace (rc + 1 <? max_retries) with true by (symmetry; apply Z.ltb_lt; lia).
      lia.
Qed.

End TeardownOfAFailingSearch.

(** X5.  When every attempt fails and no pause between two attempts is
    interrupted ([max_retries >= 0], session started): with
    [max_retries = 0] the driver is never quit, and otherwise it is quit
    exactly once. *)
Theorem teardown_when_every_attempt_fails
    (env : Env) (q : string) (max_retries : Z) (w : world) :
  0 <= max_retries ->
  env (trace w) (Chrome chrome_arguments) = Ret tt ->
  (forall w1, exists e w2,
      attempt env q w1 = (Raise e, w2) /\ is_Exception e = true) ->
  (forall w1 e w2,
      attempt env q w1 = (Raise e, w2) -> env (trace w2) (Sleep 2) = Ret tt) ->
  teardowns (snd (search_and_save_page env q max_retries w))
  = (teardowns w + if (max_retries =? 0)%Z then 0 else 1)%nat.
Proof.
  intros Hmax Hstart Hfail Hpause.
  unfold search_and_save_page, bind, logging, call.
  rewrite trace_record_log, Hstart.
  rewrite (failing_loop_teardowns env q max_retries Hfail Hpause
             (Z.to_nat max_retries))
    by lia.
  unfold teardowns. rewrite count_record_request, trace_record_log.
  cbn [is_DriverQuit].
  destruct (Z.eqb_spec max_retries 0) as [->|Hne].
  - cbn [Z.ltb Z.compare]. lia.
  - replace (0 <? max_retries) with true by (symmetry; apply Z.ltb_lt; lia).
    lia.
Qed.

Lemma teardown_when_every_attempt_fails_witness :
  teardowns (snd (search_and_save_page Sample.never_loads "Adele" 2 empty_world))
  = (teardowns empty_world + if (2 =? 0)%Z then 0 else 1)%nat.
Proof.
  apply (teardown_when_every_attempt_fails Sample.never_loads "Adele" 2 empty_world).
  - lia.
  - reflexivity.
  - intros w1. eexists. eexists. split; reflexivity.
  - intros w1 e w2 _. reflexivity.
Defined.



(** ** Interrupts and swallowed exceptions *)

(** X7.  An exception of an attempt that does not derive from
    [Exception] (an operator interrupt) is not retried: in any round of
    the loop it leaves [search_and_save_page] after the [finally] block,
    with no failure logged and no further navigation. *)
Theorem interrupt_is_not_retried
    (env : Env) (q : string) (max_retries rc : Z) (w : world) (e : exn) (w1 : world) :
  rc <= max_retries ->
  attempt env q w = (Raise e, w1) ->
  is_Exception e = false ->
  retry_loop env q max_retries rc w = (Raise e, finally_close max_retries rc w1)
  /\ attempts (finally_close max_retries rc w1) = (attempts w + 1)%nat.
Proof.
  intros Hrc Hatt He. split.
  - rewrite retry_loop_step.
    replace (rc <=? max_retries) with true by (symmetry; apply Z.leb_le; exact Hrc).
    unfold round, try_attempt. rewrite Hatt, He. reflexivity.
  - unfold attempts. rewrite finally_close_count by reflexivity.
    pose proof (attempt_navigates env q w) as Hnav.
    rewrite Hatt in Hnav. exact Hnav.
Qed.

Lemma interrupt_is_not_retried_witness :
  let w1 := snd (attempt Sample.interrupted "Adele" empty_world) in
  retry_loop Sample.interrupted "Adele" 2 1 empty_world
  = (Raise (mk_exn KeyboardInterrupt ""), finally_close 2 1 w1)
  /\ attempts (finally_close 2 1 w1) = (attempts empty_world + 1)%nat.
Proof.
  apply (interrupt_is_not_retried Sample.interrupted "Adele" 2 1 empty_world
           (mk_exn KeyboardInterrupt "")
           (snd (attempt Sample.interrupted "Adele" empty_world))).
  - lia.
  - vm_compute. reflexivity.
  - reflexivity.
Defined.

(** X8.  The cookie-consent step never raises: whatever the wait or the
    click answer, an exception that does not derive from [Exception]
    included, the bare [except] turns it into a normal end of the
    step. *)
Theorem cookie_consent_never_raises (env : Env) (w : world) :
  exists w', handle_cookie_consent env w = (Ret tt, w').
Proof.
  unfold handle_cookie_consent, try_except, time_sleep.
  cbv [bind call emit logging anything].
  destruct (env (trace w) (Until _ _)) as [el|e]; [|eexists; reflexivity].
  destruct (env _ (Click el)) as [[]|e]; [|eexists; reflexivity].
  destruct (env _ (Sleep 1)) as [[]|e]; eexists; reflexivity.
Qed.

Section ProbingForResults.

Variable env : Env.

Local Abbreviation present s :=
  (Until 20 (presence_of_element_located By_CSS_SELECTOR s)).

(** The loop of lines 159-167 from any state: [m] waits raise, then
    either one returns ([matched]) or the list is exhausted. *)
Lemma find_results_first_match selectors :
  forall w, exists m matched w',
    find_results env selectors w = (Ret matched, w')
    /\ trace w'
       = (trace w
          ++ map (fun s => present s)
               (firstn (if matched then S m else m) selectors))%list
    /\ (forall i, (i < m)%nat ->
          exists e,
            env (trace w ++ map (fun s => present s) (firstn i selectors))%list
                (present (nth i selectors "")) = Raise e)
    /\ (if matched
        then (m < List.length selectors)%nat
             /\ exists el,
                  env (trace w ++ map (fun s => present s) (firstn m selectors))%list
                      (present (nth m selectors "")) = Ret el
        else m = List.length selectors)
    /\ log w'
       = (log w ++ if matched then [(INFO, "Search results found")] else [])%list.
Proof.
  induction selectors as [|s rest IH]; intros w.
  - exists 0%nat, false, w. cbn. rewrite !app_nil_r.
    repeat split. intros i Hi. lia.
  - destruct (env (trace w) (present s)) as [el|e] eqn:Hs.
    + exists 0%nat, true. eexists.
      cbn [find_results]. cbv [bind try_except call logging ret anything].
      rewrite Hs. split; [reflexivity|].
      cbn [trace log record_log record_request firstn map nth List.length].
      rewrite app_nil_r.
      split; [reflexivity|]. split; [intros i Hi; lia|].
      split; [|reflexivity]. split; [lia|]. exists el. exact Hs.
    + destruct (IH (record_request (present s) w))
        as (m & matched & w' & Hrun & Htrace & Hbefore & Hat & Hlog).
      exists (S m), matched, w'.
      split.
      { cbn [find_results]. cbv [bind try_except call logging ret anything].
        rewrite Hs. exact Hrun. }
      cbn [trace log record_request] in *.
      split.
      { rewrite Htrace, <- app_assoc. destruct matched; reflexivity. }
      split.
      { intros [|i] Hi.
        - cbn [firstn map nth]. rewrite app_nil_r. exists e. exact Hs.
        - cbn [firstn map nth].
          destruct (Hbefore i) as (e' & He'); [lia|].
          exists e'. rewrite <- app_assoc in He'. exact He'. }
      split; [|exact Hlog].
      destruct matched.
      * destruct Hat as (Hm & el & Hel). split; [cbn [List.length]; lia|].
        exists el. cbn [firstn map nth]. rewrite <- app_assoc in Hel. exact Hel.
      * cbn [List.length]. lia.
Qed.

End ProbingForResults.

(** X9.  The result-confirmation step never raises, and it probes the
    result selectors in list order, one wait each, up to and including
    the first one whose wait returns an element: the waits before that
    one have raised, no later selector is asked, and the last log
    record says that results were found; when every wait raises, all
    selectors have been asked and the last log record is the warning. *)
Theorem confirm_results_probes_in_order
    (env : Env) (selectors : list string) (w : world) :
  let present (s : string) :=
    Until 20 (presence_of_element_located By_CSS_SELECTOR s) in
  let asked (i : nat) :=
    env (trace w ++ map present (firstn i selectors))%list
        (present (nth i selectors "")) in
  exists (m : nat) (matched : bool) (w' : world),
    confirm_results env selectors w = (Ret tt, w')
    /\ trace w'
       = (trace w ++ map present (firstn (if matched then S m else m) selectors))%list
    /\ (forall i, (i < m)%nat -> exists e, asked i = Raise e)
    /\ (if matched
        then (m < List.length selectors)%nat /\ exists el, asked m = Ret el
        else m = List.length selectors)
    /\ log w'
       = (log w
          ++ [if matched then (INFO, "Search results found")
              else (WARNING, "Could not confirm results - will try to save anyway")])%list.
Proof.
  cbv zeta.
  destruct (find_results_first_match env selectors w)
    as (m & matched & w' & Hrun & Htrace & Hbefore & Hat & Hlog).
  exists m, matched.
  unfold confirm_results, bind. rewrite Hrun.
  destruct matched.
  - exists w'. split; [reflexivity|]. split; [exact Htrace|].
    split; [exact Hbefore|]. split; [exact Hat | exact Hlog].
  - eexists. split; [reflexivity|].
    cbn [trace log record_log]. split; [exact Htrace|].
    split; [exact Hbefore|]. split; [exact Hat|].
    rewrite Hlog, app_nil_r. reflexivity.
Qed.

Section WhereTheInputComesFrom.

Variable env : Env.

Local Abbreviation clickable s :=
  (Until 20 (element_to_be_clickable By_CSS_SELECTOR s)).

Lemma find_search_input_origin selectors :
  forall si w el w',
    find_search_input env selectors si w = (Ret (Some el), w') ->
    si = Some el
    \/ exists s h, In s selectors /\ env h (clickable s) = Ret el.
Proof.
  induction selectors as [|s rest IH]; intros si w el w' H.
  - left. cbn in H. inversion H. reflexivity.
  - destruct (env (trace w) (clickable s)) as [found|e] eqn:H1.
    + destruct (env (trace w ++ [clickable s])%list (IsDisplayed found))
        as [[|]|e] eqn:H2.
      * rewrite (find_search_input_breaks env s rest si w found H1 H2) in H.
        inversion H; subst. right. exists s, (trace w). split; [left; reflexivity | exact H1].
      * rewrite (find_search_input_keeps env s rest si w found H1) in H
          by (rewrite H2; discriminate).
        destruct (IH _ _ _ _ H) as [Hsame | (s' & h & Hin & Hs')].
        -- inversion Hsame; subst. right. exists s, (trace w).
           split; [left; reflexivity | exact H1].
        -- right. exists s', h. split; [right; exact Hin | exact Hs'].
      * rewrite (find_search_input_keeps env s rest si w found H1) in H
          by (rewrite H2; discriminate).
        destruct (IH _ _ _ _ H) as [Hsame | (s' & h & Hin & Hs')].
        -- inversion Hsame; subst. right. exists s, (trace w).
           split; [left; reflexivity | exact H1].
        -- right. exists s', h. split; [right; exact Hin | exact Hs'].
    + rewrite (find_search_input_skips env s rest si w e H1) in H.
      destruct (IH _ _ _ _ H) as [Hsame | (s' & h & Hin & Hs')].
      * left. exact Hsame.
      * right. exists s', h. split; [right; exact Hin | exact Hs'].
Qed.

End WhereTheInputComesFrom.

(** X10.  The element the search-input step returns is one that the
    wait for one of the listed selectors returned; and whatever the
    waits and [is_displayed] raise, the only exception that leaves the
    step is its own [NoSuchElementException]. *)
Theorem search_input_comes_from_a_wait
    (env : Env) (selectors : list string) (w : world) :
  (forall el w',
      locate_search_input env selectors w = (Ret el, w') ->
      exists s h,
        In s selectors
        /\ env h (Until 20 (element_to_be_clickable By_CSS_SELECTOR s)) = Ret el)
  /\ (forall e w',
         locate_search_input env selectors w = (Raise e, w') ->
         e = mk_exn NoSuchElementException "Could not find search input").
Proof.
  split.
  - intros el w'. unfold locate_search_input, bind.
    destruct (find_search_input env selectors None w) as [[[found|]|e] w1] eqn:Hf;
      unfold ret, raise; intros H; inversion H; subst.
    destruct (find_search_input_origin env selectors None w el w' Hf)
      as [Hnone | Hfrom]; [discriminate | exact Hfrom].
  - intros e w'. apply locate_search_input_raises.
Qed.

Lemma search_input_comes_from_a_wait_witness :
  exists s h,
    In s search_selectors
    /\ Sample.hidden_search_box h
         (Until 20 (element_to_be_clickable By_CSS_SELECTOR s)) = Ret 7%nat.
Proof.
  destruct (search_input_comes_from_a_wait Sample.hidden_search_box
              search_selectors empty_world) as (Hfrom & _).
  apply (Hfrom 7%nat
           (snd (locate_search_input Sample.hidden_search_box search_selectors
                   empty_world))).
  vm_compute. reflexivity.
Defined.

(** ** Files and screenshots *)

Lemma save_webpage_without_screenshot (env : Env) (q : string) :
  quiet is_SaveScreenshot (save_webpage env q false).
Proof.
  unfold save_webpage, save_webpage_body, write_files, verify_saved, with_open.
  repeat first [ quiet_step
               | match goal with
                 | |- quiet _ (call _ ?r) =>
                     apply (quiet_call env is_SaveScreenshot r); reflexivity
                 end ].
Qed.

(** X11.  Without [take_screenshot], [save_webpage] never asks the
    driver for a screenshot and a capture it returns has no screenshot
    path; with it, the screenshot path of a capture is the HTML path
    with [.png] in place of [.html]: same directory, same stem. *)
Theorem screenshot_only_on_request (env : Env) (q : string) (w : world) :
  count is_SaveScreenshot (trace (snd (save_webpage env q false w)))
  = count is_SaveScreenshot (trace w)
  /\ (forall files w',
         save_webpage env q false w = (Ret (Some files), w') ->
         screenshot_path files = None)
  /\ (forall files w',
         save_webpage env q true w = (Ret (Some files), w') ->
         exists dir stem,
           html_path files = PyStr.path_join dir (stem ++ ".html")
           /\ screenshot_path files = Some (PyStr.path_join dir (stem ++ ".png"))).
Proof.
  split; [apply save_webpage_without_screenshot|]. split.
  - intros files w' H.
    destruct (save_webpage_some env q false w files w' H) as (w1 & Hw & _).
    destruct (write_files_done env q false w _ _ w1 Hw)
      as (cwd & now & src & _ & _ & _ & _ & Hsp & _).
    exact Hsp.
  - intros files w' H.
    destruct (save_webpage_some env q true w files w' H) as (w1 & Hw & _).
    destruct (write_files_done env q true w _ _ w1 Hw)
      as (cwd & now & src & _ & _ & _ & Hp & Hsp & _).
    eexists _, _. split; [exact Hp | exact Hsp].
Qed.

Lemma screenshot_only_on_request_witness :
  exists files,
    fst (save_webpage Sample.cooperative "Adele" false empty_world) = Ret (Some files)
    /\ screenshot_path files = None.
Proof.
  destruct (screenshot_only_on_request Sample.cooperative "Adele" empty_world)
    as (_ & Hnone & _).
  eexists. split.
  - vm_compute. reflexivity.
  - apply (Hnone _ (snd (save_webpage Sample.cooperative "Adele" false empty_world))).
    vm_compute. reflexivity.
Defined.



Section AtMost.

Variable env : Env.
Variable p : request -> bool.

Lemma at_most_quiet {A} (c : M A) n : quiet p c -> at_most p n c.
Proof. intros H w. rewrite H. lia. Qed.

Lemma at_most_call r : at_most p 1 (call env r).
Proof.
  intros w. unfold call. cbn [snd]. rewrite count_record_request.
  destruct (p r); lia.
Qed.

Lemma at_most_bind_l {A B} (c : M A) (k : A -> M B) n :
  at_most p n c -> (forall a, quiet p (k a)) -> at_most p n (bind c k).
Proof.
  intros Hc Hk w. unfold bind. specialize (Hc w).
  destruct (c w) as [[a|e] w1]; cbn [snd] in *; [rewrite Hk|]; exact Hc.
Qed.

Lemma at_most_bind_r {A B} (c : M A) (k : A -> M B) n :
  quiet p c -> (forall a, at_most p n (k a)) -> at_most p n (bind c k).
Proof.
  intros Hc Hk w. unfold bind. specialize (Hc w).
  destruct (c w) as [[a|e] w1]; cbn [snd] in *.
  - specialize (Hk a w1). lia.
  - lia.
Qed.

Lemma at_most_try_except {A} (c : M A) catches h n :
  at_most p n c -> (forall e, quiet p (h e)) -> at_most p n (try_except c catches h).
Proof.
  intros Hc Hh w. unfold try_except. specialize (Hc w).
  destruct (c w) as [[a|e] w1]; cbn [snd] in *; [exact Hc|].
  destruct (catches e); cbn [snd]; [rewrite Hh|]; exact Hc.
Qed.

End AtMost.

Section OneFile.

Variable env : Env.

Local Ltac others :=
  repeat first [ quiet_step
               | match goal with
                 | |- quiet _ (call _ ?r) =>
                     apply (quiet_call env is_FileOpen r); reflexivity
                 end ].

Lemma write_files_opens_once q shot : at_most is_FileOpen 1 (write_files env q shot).
Proof.
  unfold write_files.
  apply at_most_bind_r; [others | intros cwd].
  apply at_most_bind_r; [others | intros _].
  apply at_most_bind_r; [others | intros now].
  apply at_most_bind_r; [others | intros _].
  apply at_most_bind_r; [others | intros _].
  apply at_most_bind_r; [others | intros src].
  apply at_most_bind_l.
  - unfold with_open. apply at_most_bind_l; [apply at_most_call | intros _; others].
  - intros _. others.
Qed.

Lemma save_webpage_opens_once q shot : at_most is_FileOpen 1 (save_webpage env q shot).
Proof.
  unfold save_webpage. apply at_most_try_except; [|intros e; others].
  unfold save_webpage_body. apply at_most_bind_l; [apply write_files_opens_once|].
  intros written. unfold verify_saved. others.
Qed.

Lemma persist_page_opens_once q : at_most is_FileOpen 1 (persist_page env q).
Proof.
  unfold persist_page. apply at_most_bind_r; [others | intros _].
  apply at_most_bind_l; [apply save_webpage_opens_once|].
  intros [files|]; unfold report_saved; others.
Qed.

Lemma reach_results_opens_nothing q : quiet is_FileOpen (reach_results env q).
Proof.
  apply browsing_reach_results. intros [] H; try discriminate H; reflexivity.
Qed.

Lemma attempt_opens_once q : at_most is_FileOpen 1 (attempt env q).
Proof.
  unfold attempt. apply at_most_bind_r; [apply reach_results_opens_nothing|].
  intros _. apply persist_page_opens_once.
Qed.

(** An attempt that is going to be retried has not reached the
    persistence step. *)
Lemma retried_attempt_opens_nothing q w e w' :
  attempt env q w = (Raise e, w') ->
  is_Exception e = true ->
  count is_FileOpen (trace w') = count is_FileOpen (trace w).
Proof.
  unfold attempt, bind. pose proof (reach_results_opens_nothing q w) as Hreach.
  destruct (reach_results env q w) as [[[]|e0] w1]; cbn [snd] in Hreach.
  - intros Hp He. rewrite (persist_page_raises env q w1 e w' Hp) in He. discriminate.
  - intros H _. inversion H; subst. exact Hreach.
Qed.

Lemma round_opens_once q max_retries rc w :
  (count is_FileOpen (trace (snd (round env q max_retries rc w)))
   <= count is_FileOpen (trace w) + 1)%nat
  /\ (forall rc', fst (round env q max_retries rc w) = Again rc' ->
        count is_FileOpen (trace (snd (round env q max_retries rc w)))
        = count is_FileOpen (trace w)).
Proof.
  pose proof (attempt_opens_once q w) as Hle.
  pose proof (retried_attempt_opens_nothing q w) as Hretry.
  unfold round, try_attempt.
  destruct (attempt env q w) as [[v|e] w1]; cbn [snd] in Hle.
  - cbn [fst snd]. rewrite finally_close_count by reflexivity.
    split; [exact Hle | discriminate].
  - destruct (is_Exception e) eqn:He.
    + specialize (Hretry e w1 eq_refl He).
      unfold time_sleep, call.
      destruct (rc + 1 <=? max_retries);
        [destruct (env _ (Sleep 2)) as [[]|e']|]; cbn [fst snd];
        rewrite finally_close_count by reflexivity;
        rewrite ?count_record_request, ?trace_record_log; cbn [is_FileOpen];
        split; try lia; intros; lia.
    + cbn [fst snd]. rewrite finally_close_count by reflexivity.
      split; [exact Hle | discriminate].
Qed.

Lemma retry_loop_opens_once q max_retries n :
  forall rc w,
    (Z.to_nat (max_retries + 1 - rc) <= n)%nat ->
    (count is_FileOpen (trace (snd (retry_loop env q max_retries rc w)))
     <= count is_FileOpen (trace w) + 1)%nat.
Proof.
  induction n as [|n IH]; intros rc w Hn; rewrite retry_loop_step.
  - replace (rc <=? max_retries) with false by (symmetry; apply Z.leb_gt; lia).
    cbn [snd]. lia.
  - destruct (rc <=? max_retries) eqn:Hrc; [|cbn [snd]; lia].
    apply Z.leb_le in Hrc.
    destruct (round_opens_once q max_retries rc w) as (Hle & Hagain).
    destruct (round env q max_retries rc w) as [[v|rc'|e] w'] eqn:Hr;
      cbn [fst snd] in *; try exact Hle.
    specialize (Hagain rc' eq_refl).
    apply round_fallback in Hr. subst rc'.
    specialize (IH (rc + 1) w'). lia.
Qed.

End OneFile.

(** X13.  Whatever the browser and the file system do and however many
    attempts are made, one call of [search_and_save_page] opens at most
    one file: an attempt that is retried has not reached the persistence
    step, and the attempt that reaches it ends the loop. *)
Theorem at_most_one_file_opened (env : Env) (q : string) (max_retries : Z) (w : world) :
  (count is_FileOpen (trace (snd (search_and_save_page env q max_retries w)))
   <= count is_FileOpen (trace w) + 1)%nat.
Proof.
  unfold search_and_save_page, bind, logging, call.
  destruct (env _ (Chrome _)) as [[]|e]; cbn [snd].
  - pose proof (retry_loop_opens_once env q max_retries
                  (Z.to_nat (max_retries + 1 - 0)) 0
                  (record_request (Chrome chrome_arguments)
                     (record_log INFO ("Starting search for: " ++ q) w))
                  (Nat.le_refl _)) as H.
    rewrite count_record_request, trace_record_log in H. cbn [is_FileOpen] in H.
    lia.
  - rewrite count_record_request, trace_record_log. cbn [is_FileOpen]. lia.
Qed.

(** ** Page loads *)

(** X14.  When the navigation succeeds and the first ready-state wait
    raises, the attempt ends there, after these two requests and without
    the settle pause: a timeout of the wait comes out as the script's own
    [TimeoutException] "Page failed to load", any other exception of the
    wait comes out as it is. *)
Theorem page_load_failure_ends_the_attempt
    (env : Env) (q : string) (w : world) (e : exn) :
  env (trace w) (Get "https://www.ticketmaster.com") = Ret tt ->
  env (trace w ++ [Get "https://www.ticketmaster.com"])%list (UntilReady 30)
  = Raise e ->
  exists w',
    attempt env q w
    = (Raise (if is_TimeoutException e
              then mk_exn TimeoutException "Page failed to load"
              else e), w')
    /\ trace w'
       = (trace w ++ [Get "https://www.ticketmaster.com"; UntilReady 30])%list.
Proof.
  intros Hget Hwait.
  unfold attempt, reach_results, submit_search, load_site, wait_for_page_load.
  cbv [bind try_except call logging ret raise].
  cbn [trace record_log record_request]. rewrite Hget, Hwait.
  destruct (is_TimeoutException e); eexists; (split; [reflexivity|]);
    cbn [trace record_log record_request]; rewrite <- app_assoc; reflexivity.
Qed.

Lemma page_load_failure_ends_the_attempt_witness :
  exists w',
    attempt Scenario.connection_lost "Adele" empty_world
    = (Raise (if is_TimeoutException (mk_exn WebDriverException "disconnected")
              then mk_exn TimeoutException "Page failed to load"
              else mk_exn WebDriverException "disconnected"), w')
    /\ trace w'
       = ([] ++ [Get "https://www.ticketmaster.com"; UntilReady 30])%list.
Proof.
  apply (page_load_failure_ends_the_attempt Scenario.connection_lost "Adele"
           empty_world (mk_exn WebDriverException "disconnected"));
    reflexivity.
Defined.

(** ** The main block and the crawler *)

(** X15.  Whatever standard input, the browser, the file system and the
    crawler do, the main block ends normally, and it starts at most one
    process. *)
Theorem main_never_raises
    (env : Env) (sys_executable script_file : string)
    (signal_repr : Z -> option string) (w : world) :
  exists w',
    main env sys_executable script_file signal_repr w = (Ret tt, w')
    /\ (launches w' <= launches w + 1)%nat.
Proof.
  assert (Hclass : forall e, is_KeyboardInterrupt e = false -> is_Exception e = true)
    by (intros [[] ?]; cbn; congruence).
  assert (Hin : launches (record_request (Input input_prompt) w) = launches w).
  { unfold launches. rewrite count_record_request. cbn [is_Run]. lia. }
  unfold main, try_except2. unfold bind at 1. unfold call at 1.
  destruct (env (trace w) (Input input_prompt)) as [line|e].
  - destruct (PyStr.truthy (PyStr.strip line)).
    + unfold bind at 1.
      pose proof (search_launches_nothing env (PyStr.strip line) 2
                    (record_request (Input input_prompt) w)) as Hs.
      destruct (search_and_save_page env (PyStr.strip line) 2 _)
        as [[[files|]|e] w1]; cbn [snd] in Hs.
      * destruct (execute_crawler_runs env sys_executable script_file signal_repr w1)
          as (w' & report & Hrun & Htrace & _ & _).
        rewrite Hrun.
        assert (Hw' : launches w' = (launches w + 1)%nat).
        { unfold launches in *. rewrite Htrace, count_app, Hs, Hin. reflexivity. }
        destruct (env (trace w1) (Run _)) as [n|e].
        -- exists w'. split; [reflexivity | lia].
        -- destruct (is_Exception e) eqn:He.
           ++ exists w'. split; [reflexivity | lia].
           ++ rewrite (not_Exception_is_interrupt e He).
              eexists. split; [reflexivity|].
              unfold launches in *. rewrite trace_record_log. lia.
      * eexists. split; [reflexivity|].
        unfold launches in *. rewrite trace_record_log. lia.
      * destruct (is_KeyboardInterrupt e) eqn:Hk;
          [|rewrite (Hclass e Hk)]; eexists; (split; [reflexivity|]);
          unfold launches in *; rewrite trace_record_log; lia.
    + eexists. split; [reflexivity|].
      unfold launches in *. rewrite trace_record_log. lia.
  - destruct (is_KeyboardInterrupt e) eqn:Hk;
      [|rewrite (Hclass e Hk)]; eexists; (split; [reflexivity|]);
      unfold launches in *; rewrite trace_record_log; lia.
Qed.

(** X16.  When reading the query raises, the prompt is the only request
    of the run and the main block ends normally with one log record: the
    cancellation notice for an operator interrupt, and otherwise (end of
    input, for one) the unexpected error with the exception's text. *)
Theorem input_failure_is_logged
    (env : Env) (sys_executable script_file : string)
    (signal_repr : Z -> option string) (w : world) (e : exn) :
  env (trace w) (Input input_prompt) = Raise e ->
  main env sys_executable script_file signal_repr w
  = (Ret tt,
     mk_world (trace w ++ [Input input_prompt])
       (log w ++ [if is_KeyboardInterrupt e
                  then (INFO, (newline ++ "Operation cancelled by user")%string)
                  else (ERROR, ("Unexpected error: " ++ str_exn e)%string)])).
Proof.
  intros Hin.
  assert (Hclass : is_KeyboardInterrupt e = false -> is_Exception e = true)
    by (destruct e as [[] ?]; cbn; congruence).
  unfold main, try_except2. unfold bind at 1. unfold call at 1. rewrite Hin.
  destruct (is_KeyboardInterrupt e); [|rewrite (Hclass eq_refl)]; reflexivity.
Qed.

Lemma input_failure_is_logged_witness :
  main Scenario.end_of_input Sample.python Sample.this_file Sample.signals empty_world
  = (Ret tt,
     mk_world ([] ++ [Input input_prompt])
       ([] ++ [if is_KeyboardInterrupt (mk_exn EOFError "EOF when reading a line")
               then (INFO, (newline ++ "Operation cancelled by user")%string)
               else (ERROR, ("Unexpected error: "
                             ++ str_exn (mk_exn EOFError "EOF when reading a line"))%string)])).
Proof.
  apply (input_failure_is_logged Scenario.end_of_input Sample.python
           Sample.this_file Sample.signals empty_world (mk_exn EOFError "EOF when reading a line")).
  reflexivity.
Defined.

(** X17.  [execute_crawler] tells its failures apart in the log, and
    returns normally after its one request in each case.  A crawler that
    exits with a positive status is reported as "Error executing
    crawler" with the command and the status; a crawler ended by a
    signal, with the command and the signal as the platform names it, or
    its number where it has no name; a crawler that cannot be started
    (any other [Exception]) as "Unexpected error while executing
    crawler" with the text of the exception. *)
Theorem crawler_failures_are_told_apart
    (env : Env) (sys_executable script_file : string)
    (signal_repr : Z -> option string) (w : world) :
  let crawler := [sys_executable;
                  PyStr.path_join (PyStr.dirname script_file) "crawler.py"] in
  let reported msg :=
    (@Ret unit tt,
     mk_world (trace w ++ [Run crawler])
       (log w ++ [(INFO, "Starting crawler process..."); (ERROR, msg)])) in
  let run := execute_crawler env sys_executable script_file signal_repr w in
  (forall n,
      env (trace w) (Run crawler) = Ret n ->
      0 < n ->
      run = reported ("Error executing crawler: Command '"
                      ++ PyStr.repr_list crawler
                      ++ "' returned non-zero exit status "
                      ++ PyStr.str_of_int n ++ "."))
  /\ (forall n name,
         env (trace w) (Run crawler) = Ret n ->
         n < 0 ->
         signal_repr (- n) = Some name ->
         run = reported ("Error executing crawler: Command '"
                         ++ PyStr.repr_list crawler
                         ++ "' died with " ++ name ++ "."))
  /\ (forall n,
         env (trace w) (Run crawler) = Ret n ->
         n < 0 ->
         signal_repr (- n) = None ->
         run = reported ("Error executing crawler: Command '"
                         ++ PyStr.repr_list crawler
                         ++ "' died with unknown signal "
                         ++ PyStr.str_of_int (- n) ++ "."))
  /\ (forall e,
         env (trace w) (Run crawler) = Raise e ->
         is_Exception e = true ->
         is_CalledProcessError e = false ->
         run = reported ("Unexpected error while executing crawler: "
                         ++ str_exn e)).
Proof.
  cbv zeta.
  assert (Hnonzero : forall n msg,
             env (trace w)
               (Run [sys_executable;
                     PyStr.path_join (PyStr.dirname script_file) "crawler.py"])
             = Ret n ->
             n <> 0 ->
             called_process_error_text signal_repr
               [sys_executable;
                PyStr.path_join (PyStr.dirname script_file) "crawler.py"] n = msg ->
             execute_crawler env sys_executable script_file signal_repr w
             = (Ret tt,
                mk_world
                  (trace w
                   ++ [Run [sys_executable;
                            PyStr.path_join (PyStr.dirname script_file)
                              "crawler.py"]])
                  (log w ++ [(INFO, "Starting crawler process...");
                             (ERROR, "Error executing crawler: " ++ msg)]))).
  { intros n msg Hrun Hn Hmsg.
    unfold execute_crawler, try_except2, subprocess_run_check.
    cbv [bind logging call ret raise]. cbn [trace record_log record_request].
    rewrite Hrun. replace (n =? 0) with false by (symmetry; apply Z.eqb_neq; exact Hn).
    cbn [is_CalledProcessError exn_cls mk_exn].
    unfold str_exn. cbn [is_WebDriverException exn_cls mk_exn exn_msg].
    rewrite Hmsg. unfold record_log, record_request. cbn [trace log].
    rewrite <- app_assoc. reflexivity. }
  split; [|split; [|split]].
  - intros n Hrun Hn. apply (Hnonzero n); [exact Hrun | lia |].
    unfold called_process_error_text, repr_args.
    replace (n <? 0) with false by (symmetry; apply Z.ltb_ge; lia).
    reflexivity.
  - intros n name Hrun Hn Hname. apply (Hnonzero n); [exact Hrun | lia |].
    unfold called_process_error_text, repr_args.
    replace (n <? 0) with true by (symmetry; apply Z.ltb_lt; lia).
    rewrite Hname. reflexivity.
  - intros n Hrun Hn Hname. apply (Hnonzero n); [exact Hrun | lia |].
    unfold called_process_error_text, repr_args.
    replace (n <? 0) with true by (symmetry; apply Z.ltb_lt; lia).
    rewrite Hname. reflexivity.
  - intros e Hrun He Hc.
    unfold execute_crawler, try_except2, subprocess_run_check.
    cbv [bind logging call ret raise]. cbn [trace record_log record_request].
    rewrite Hrun, Hc, He.
    unfold record_log, record_request. cbn [trace log].
    rewrite <- app_assoc. reflexivity.
Qed.

Lemma crawler_failures_are_told_apart_witness :
  execute_crawler Scenario.crawler_killed Sample.python Sample.this_file
    Sample.signals empty_world
  = (Ret tt,
     mk_world [Run [Sample.python; "/srv/scraper/crawler.py"]]
       [(INFO, "Starting crawler process...");
        (ERROR, "Error executing crawler: Command '['/usr/bin/python3', '/srv/scraper/crawler.py']' died with <Signals.SIGKILL: 9>.")]).
Proof.
  destruct (crawler_failures_are_told_apart Scenario.crawler_killed Sample.python
              Sample.this_file Sample.signals empty_world) as (_ & Hkilled & _).
  apply (Hkilled (-9) "<Signals.SIGKILL: 9>"); first [reflexivity | lia].
Defined.

(** The command is printed as Python prints a list of strings: a path
    with an apostrophe is put between double quotes. *)
Example crawler_path_with_apostrophe :
  called_process_error_text Sample.signals
    ["/usr/bin/python3"; "/home/o'neil/scraper/crawler.py"] 1
  = "Command '['/usr/bin/python3', "
    ++ String PyStr.double_quote
         ("/home/o'neil/scraper/crawler.py"
          ++ String PyStr.double_quote "]' returned non-zero exit status 1.").
Proof. reflexivity. Qed.
